(** * Session synchronisation core of the chat client

    A shallow embedding of the React components that keep the active
    session, the session list and the transcript consistent:

    - [ChatScreen]               (src/frontend/src/pages/ChatScreen.tsx)
    - [SidebarConversationList]  (src/unnamed/part_001)
    - [ChatInputBar]             (src/unnamed/part_003)
    - [FeatureCards]             (src/unnamed/part_002)

    Every [async] handler is a program of a small free monad [Prog]:
    synchronous effects on the [World] (React state of the components,
    [localStorage], the ordered log of observable effects) and [await]s
    of network requests.  A program can be run to completion against an
    oracle answering its requests ([run]), or only up to its next
    suspension point ([start]), which is how several handlers are
    interleaved on the single JavaScript thread. *)

From Stdlib Require Import ZArith Ascii String List Bool Lia.
From stdpp Require Import base option strings gmap list pretty.

Import ListNotations.
Local Open Scope string_scope.
Local Open Scope Z_scope.

(** ** JavaScript values used by the handlers *)

Module JS.

(** Characters are UTF-16 code units below 256; the ECMAScript
    [WhiteSpace] and [LineTerminator] code units in that range are
    TAB, LF, VT, FF, CR, SP and NBSP. *)
Definition isWhiteSpace (c : ascii) : bool :=
  let n := nat_of_ascii c in
  ((9 <=? n)%nat && (n <=? 13)%nat) || (n =? 32)%nat || (n =? 160)%nat.

Definition isEmpty (s : string) : bool :=
  match s with EmptyString => true | String _ _ => false end.

Fixpoint trimStart (s : string) : string :=
  match s with
  | EmptyString => EmptyString
  | String c s' => if isWhiteSpace c then trimStart s' else s
  end.

Fixpoint trimEnd (s : string) : string :=
  match s with
  | EmptyString => EmptyString
  | String c s' =>
      let t := trimEnd s' in
      if isWhiteSpace c && isEmpty t then EmptyString else String c t
  end.

(** [String.prototype.trim] *)
Definition trim (s : string) : string := trimEnd (trimStart s).

(** Every character of [s] is white space (the empty string included). *)
Fixpoint blank (s : string) : bool :=
  match s with
  | EmptyString => true
  | String c s' => isWhiteSpace c && blank s'
  end.

(** Truthiness of a string: only [""] is falsy. *)
Definition truthy_string (s : string) : bool := negb (isEmpty s).

(** Truthiness of a [string | null], as returned by [localStorage.getItem]. *)
Definition truthy_item (o : option string) : bool :=
  match o with Some s => truthy_string s | None => false end.

(** Truthiness of a [number | null]: [null] and [0] are falsy. *)
Definition truthy_number (o : option Z) : bool :=
  match o with Some n => negb (n =? 0) | None => false end.

(** Truthiness of an [object | undefined]: every object is truthy. *)
Definition truthy_object {A : Type} (o : option A) : bool :=
  match o with Some _ => true | None => false end.

(** [String(n)] and [n.toString()] on an integer. *)
Definition String_of (n : Z) : string := pretty n.

(** [toLowerCase] on one code unit below 256: the letters A-Z, and the
    capital letters U+00C0 to U+00DE except the multiplication sign
    U+00D7, move up by 32. *)
Definition lower (c : ascii) : ascii :=
  let n := nat_of_ascii c in
  if ((65 <=? n)%nat && (n <=? 90)%nat)
     || ((192 <=? n)%nat && (n <=? 222)%nat && negb (n =? 215)%nat)
  then ascii_of_nat (n + 32)
  else c.

(** [String.prototype.toLowerCase] *)
Fixpoint toLowerCase (s : string) : string :=
  match s with
  | EmptyString => EmptyString
  | String c s' => String (lower c) (toLowerCase s')
  end.

(** [s.startsWith(p)] *)
Fixpoint startsWith (s p : string) : bool :=
  match p, s with
  | EmptyString, _ => true
  | String a p', String b s' => Ascii.eqb a b && startsWith s' p'
  | String _ _, EmptyString => false
  end.

(** [s.includes(sub)] *)
Fixpoint includes (s sub : string) : bool :=
  startsWith s sub
  || match s with
     | EmptyString => false
     | String _ s' => includes s' sub
     end.

End JS.

(** ** Data model *)

Inductive Role := user | bot.

(** [type ChatMessage = { role: "user" | "bot"; text: string }] *)
Record ChatMessage := { role : Role; text : string }.

(** [type ChatSession = { id: number; name: string }] *)
Record ChatSession := { id : Z; name : string }.

(** One element of the array returned by [GET /sessions/<id>/messages]:
    [{message, response, ...}], where [response] may be [null]. *)
Record Exchange := { message : string; response : option string }.

Global Instance Role_eq_dec : EqDecision Role.
Proof. solve_decision. Defined.
Global Instance ChatMessage_eq_dec : EqDecision ChatMessage.
Proof. solve_decision. Defined.
Global Instance ChatSession_eq_dec : EqDecision ChatSession.
Proof. solve_decision. Defined.

(** ** Network requests *)

(** The five requests the components issue.  [token] is what
    [localStorage.getItem("token")] returned when the header
    [Authorization: Bearer ${token}] was built. *)
Inductive Request :=
| GET_sessions (token : option string)
| POST_sessions (token : option string) (body_message : option string)
| GET_messages (token : option string) (sid : Z)
| POST_message (token : option string) (sid : Z) (body_message : string)
| DELETE_sessions (token : option string).

Global Instance Request_eq_dec : EqDecision Request.
Proof. solve_decision. Defined.

(** What the handler reads out of the parsed JSON body of each request:
    the array of sessions, [data.id], the array of exchanges,
    [data.answer], nothing. *)
Definition Data (r : Request) : Type :=
  match r with
  | GET_sessions _ => list ChatSession
  | POST_sessions _ _ => Z
  | GET_messages _ _ => list Exchange
  | POST_message _ _ _ => string
  | DELETE_sessions _ => unit
  end.

(** A [Response] object: [res.ok], and what [await res.json()] and
    [await res.text()] give ([None]: the promise rejects). *)
Record HttpResponse (D : Type) := {
  ok : bool;
  json : option D;
  body_text : option string
}.
Arguments ok {D} _.
Arguments json {D} _.
Arguments body_text {D} _.

(** The outcome of [await fetch(...)]: the promise rejects (transport
    failure) or resolves to a response with any status. *)
Inductive FetchResult (D : Type) :=
| NetworkError
| Response (res : HttpResponse D).
Arguments NetworkError {D}.
Arguments Response {D} _.

(** ** Observable effects, in the order they happen *)

Inductive Event :=
| EvSetItem (key value : string)
| EvRemoveItem (key : string)
| EvDispatch (topic : string) (detail : option Z)
| EvFetch (r : Request).

Global Instance Event_eq_dec : EqDecision Event.
Proof. solve_decision. Defined.

(** ** The world: component state, durable store and effect log *)

Record World := {
  localStorage : gmap string string;
  (* ChatScreen *)
  messages : list ChatMessage;
  input : string;
  sessionId : option Z;
  isLoading : bool;
  (* SidebarConversationList *)
  sessions : list ChatSession;
  activeId : option Z;
  showConfirm : bool;
  deleting : bool;
  externalReload : nat;
  (* ChatInputBar *)
  showSuggestions : bool;
  (* effects so far, oldest first *)
  log : list Event
}.

Definition with_localStorage (f : gmap string string → gmap string string) (w : World) : World :=
  {| localStorage := f (localStorage w); messages := messages w; input := input w;
     sessionId := sessionId w; isLoading := isLoading w; sessions := sessions w;
     activeId := activeId w; showConfirm := showConfirm w; deleting := deleting w;
     externalReload := externalReload w; showSuggestions := showSuggestions w;
     log := log w |}.

Definition with_messages (f : list ChatMessage → list ChatMessage) (w : World) : World :=
  {| localStorage := localStorage w; messages := f (messages w); input := input w;
     sessionId := sessionId w; isLoading := isLoading w; sessions := sessions w;
     activeId := activeId w; showConfirm := showConfirm w; deleting := deleting w;
     externalReload := externalReload w; showSuggestions := showSuggestions w;
     log := log w |}.

Definition with_input (v : string) (w : World) : World :=
  {| localStorage := localStorage w; messages := messages w; input := v;
     sessionId := sessionId w; isLoading := isLoading w; sessions := sessions w;
     activeId := activeId w; showConfirm := showConfirm w; deleting := deleting w;
     externalReload := externalReload w; showSuggestions := showSuggestions w;
     log := log w |}.

Definition with_sessionId (v : option Z) (w : World) : World :=
  {| localStorage := localStorage w; messages := messages w; input := input w;
     sessionId := v; isLoading := isLoading w; sessions := sessions w;
     activeId := activeId w; showConfirm := showConfirm w; deleting := deleting w;
     externalReload := externalReload w; showSuggestions := showSuggestions w;
     log := log w |}.

Definition with_isLoading (v : bool) (w : World) : World :=
  {| localStorage := localStorage w; messages := messages w; input := input w;
     sessionId := sessionId w; isLoading := v; sessions := sessions w;
     activeId := activeId w; showConfirm := showConfirm w; deleting := deleting w;
     externalReload := externalReload w; showSuggestions := showSuggestions w;
     log := log w |}.

Definition with_sessions (v : list ChatSession) (w : World) : World :=
  {| localStorage := localStorage w; messages := messages w; input := input w;
     sessionId := sessionId w; isLoading := isLoading w; sessions := v;
     activeId := activeId w; showConfirm := showConfirm w; deleting := deleting w;
     externalReload := externalReload w; showSuggestions := showSuggestions w;
     log := log w |}.

Definition with_activeId (v : option Z) (w : World) : World :=
  {| localStorage := localStorage w; messages := messages w; input := input w;
     sessionId := sessionId w; isLoading := isLoading w; sessions := sessions w;
     activeId := v; showConfirm := showConfirm w; deleting := deleting w;
     externalReload := externalReload w; showSuggestions := showSuggestions w;
     log := log w |}.

Definition with_showConfirm (v : bool) (w : World) : World :=
  {| localStorage := localStorage w; messages := messages w; input := input w;
     sessionId := sessionId w; isLoading := isLoading w; sessions := sessions w;
     activeId := activeId w; showConfirm := v; deleting := deleting w;
     externalReload := externalReload w; showSuggestions := showSuggestions w;
     log := log w |}.

Definition with_deleting (v : bool) (w : World) : World :=
  {| localStorage := localStorage w; messages := messages w; input := input w;
     sessionId := sessionId w; isLoading := isLoading w; sessions := sessions w;
     activeId := activeId w; showConfirm := showConfirm w; deleting := v;
     externalReload := externalReload w; showSuggestions := showSuggestions w;
     log := log w |}.

Definition with_externalReload (f : nat → nat) (w : World) : World :=
  {| localStorage := localStorage w; messages := messages w; input := input w;
     sessionId := sessionId w; isLoading := isLoading w; sessions := sessions w;
     activeId := activeId w; showConfirm := showConfirm w; deleting := deleting w;
     externalReload := f (externalReload w); showSuggestions := showSuggestions w;
     log := log w |}.

Definition with_showSuggestions (v : bool) (w : World) : World :=
  {| localStorage := localStorage w; messages := messages w; input := input w;
     sessionId := sessionId w; isLoading := isLoading w; sessions := sessions w;
     activeId := activeId w; showConfirm := showConfirm w; deleting := deleting w;
     externalReload := externalReload w; showSuggestions := v;
     log := log w |}.

Definition record (e : Event) (w : World) : World :=
  {| localStorage := localStorage w; messages := messages w; input := input w;
     sessionId := sessionId w; isLoading := isLoading w; sessions := sessions w;
     activeId := activeId w; showConfirm := showConfirm w; deleting := deleting w;
     externalReload := externalReload w; showSuggestions := showSuggestions w;
     log := log w ++ [e] |}.

(** ** Handler programs *)

(** An [async] function body: it returns, throws (its promise rejects),
    performs a synchronous effect, reads the current world, or awaits
    the answer to a request it has issued. *)
Inductive Prog (A : Type) : Type :=
| Ret (a : A)
| Throw
| Effect (f : World → World) (k : Prog A)
| Read (k : World → Prog A)
| Await (r : Request) (k : FetchResult (Data r) → Prog A).
Arguments Ret {A} _.
Arguments Throw {A}.
Arguments Effect {A} _ _.
Arguments Read {A} _.
Arguments Await {A} _ _.

Fixpoint bind {A B : Type} (p : Prog A) (f : A → Prog B) : Prog B :=
  match p with
  | Ret a => f a
  | Throw => Throw
  | Effect g k => Effect g (bind k f)
  | Read k => Read (λ w, bind (k w) f)
  | Await r k => Await r (λ x, bind (k x) f)
  end.

Global Instance Prog_ret : MRet Prog := λ A a, Ret a.
Global Instance Prog_bind : MBind Prog := λ A B f p, bind p f.

(** [try { body } catch { handler }] *)
Fixpoint try_catch {A : Type} (body handler : Prog A) : Prog A :=
  match body with
  | Ret a => Ret a
  | Throw => handler
  | Effect g k => Effect g (try_catch k handler)
  | Read k => Read (λ w, try_catch (k w) handler)
  | Await r k => Await r (λ x, try_catch (k x) handler)
  end.

(** [try { body } finally { cleanup }]: the cleanup runs on both exits
    and the exception, if any, propagates afterwards. *)
Fixpoint finally {A : Type} (body : Prog A) (cleanup : Prog unit) : Prog A :=
  match body with
  | Ret a => bind cleanup (λ _, Ret a)
  | Throw => bind cleanup (λ _, Throw)
  | Effect g k => Effect g (finally k cleanup)
  | Read k => Read (λ w, finally (k w) cleanup)
  | Await r k => Await r (λ x, finally (k x) cleanup)
  end.

(** Calling an [async] function without awaiting it: its synchronous
    prefix runs now, then the caller's remaining (synchronous)
    statements, and the callee resumes when its request is answered. A
    rejection of the un-awaited promise does not reach the caller. *)
Fixpoint detach (callee : Prog unit) (rest : Prog unit) : Prog unit :=
  match callee with
  | Ret _ => rest
  | Throw => rest
  | Effect g k => Effect g (detach k rest)
  | Read k => Read (λ w, detach (k w) rest)
  | Await r k => bind rest (λ _, Await r k)
  end.

(** *** Primitive statements *)

Definition effect (f : World → World) : Prog unit := Effect f (Ret tt).
Definition read {A : Type} (f : World → A) : Prog A := Read (λ w, Ret (f w)).

(** [localStorage.getItem(key)] *)
Definition getItem (key : string) : Prog (option string) :=
  read (λ w, localStorage w !! key).

(** [localStorage.setItem(key, value)] *)
Definition setItem (key value : string) : Prog unit :=
  effect (λ w, record (EvSetItem key value) (with_localStorage (insert key value) w)).

(** [localStorage.removeItem(key)] *)
Definition removeItem (key : string) : Prog unit :=
  effect (λ w, record (EvRemoveItem key) (with_localStorage (delete key) w)).

(** [window.dispatchEvent(new CustomEvent(topic, { detail: { sessionId } }))].
    The publication is recorded; the listeners registered for the topic
    are handlers of the other component (see [onSessionsUpdated] and
    [handleCreateNewChat] below) and only touch that component's state. *)
Definition dispatchEvent (topic : string) (detail : option Z) : Prog unit :=
  effect (record (EvDispatch topic detail)).

(** [await fetch(...)]: the request leaves when [fetch] is called; the
    handler is suspended until the answer arrives; a rejected promise
    is thrown at the [await]. *)
Definition fetch (r : Request) : Prog (HttpResponse (Data r)) :=
  Effect (record (EvFetch r))
    (Await r (λ x, match x with
                   | NetworkError => Throw
                   | Response res => Ret res
                   end)).

(** [await res.json()] and [await res.text()] *)
Definition await_json {D : Type} (res : HttpResponse D) : Prog D :=
  match json res with Some d => Ret d | None => Throw end.
Definition await_text {D : Type} (res : HttpResponse D) : Prog string :=
  match body_text res with Some s => Ret s | None => Throw end.

(** React state setters *)
Definition setMessages (f : list ChatMessage → list ChatMessage) : Prog unit :=
  effect (with_messages f).
Definition setInput (v : string) : Prog unit := effect (with_input v).
Definition setSessionId (v : option Z) : Prog unit := effect (with_sessionId v).
Definition setIsLoading (v : bool) : Prog unit := effect (with_isLoading v).
Definition setSessions (v : list ChatSession) : Prog unit := effect (with_sessions v).
Definition setActiveId (v : option Z) : Prog unit := effect (with_activeId v).
Definition setShowConfirm (v : bool) : Prog unit := effect (with_showConfirm v).
Definition setDeleting (v : bool) : Prog unit := effect (with_deleting v).
Definition setShowSuggestions (v : bool) : Prog unit := effect (with_showSuggestions v).
Definition setExternalReload (f : nat → nat) : Prog unit := effect (with_externalReload f).

(** *** Running programs *)

(** The backend and the network, as seen by one handler run. *)
Definition Oracle : Type := ∀ r : Request, FetchResult (Data r).

(** How an [async] call ends. *)
Inductive Outcome (A : Type) :=
| Resolved (a : A)
| Rejected.
Arguments Resolved {A} _.
Arguments Rejected {A}.

(** Run a handler to completion, every request answered by the oracle. *)
Fixpoint run {A : Type} (p : Prog A) (o : Oracle) (w : World) : World * Outcome A :=
  match p with
  | Ret a => (w, Resolved a)
  | Throw => (w, Rejected)
  | Effect f k => run k o (f w)
  | Read k => run (k w) o w
  | Await r k => run (k (o r)) o w
  end.

(** Where a handler stands once its synchronous steps are exhausted. *)
Inductive Status (A : Type) :=
| Settled (out : Outcome A)
| Waiting (r : Request) (k : FetchResult (Data r) → Prog A).
Arguments Settled {A} _.
Arguments Waiting {A} _ _.

(** Run a handler up to its next [await]. *)
Fixpoint start {A : Type} (p : Prog A) (w : World) : World * Status A :=
  match p with
  | Ret a => (w, Settled (Resolved a))
  | Throw => (w, Settled Rejected)
  | Effect f k => start k (f w)
  | Read k => start (k w) w
  | Await r k => (w, Waiting r k)
  end.

(** The request a suspended handler is waiting for. *)
Definition pending {A : Type} (s : Status A) : option Request :=
  match s with Settled _ => None | Waiting r _ => Some r end.

(** ** ChatScreen (src/frontend/src/pages/ChatScreen.tsx) *)

Module ChatScreen.

(** An element of the array built by [flatMap] in [fetchMessages]: a
    message object, or the falsy value of [m.response] itself. *)
Inductive Entry :=
| ENull
| EString (s : string)
| EMessage (m : ChatMessage).

(** [Boolean(e)] *)
Definition truthy (e : Entry) : bool :=
  match e with
  | ENull => false
  | EString s => JS.truthy_string s
  | EMessage _ => true
  end.

(** [m.response && { role: "bot", text: m.response }] *)
Definition response_entry (r : option string) : Entry :=
  match r with
  | None => ENull
  | Some s => if JS.truthy_string s then EMessage {| role := bot; text := s |}
              else EString s
  end.

Definition as_message (e : Entry) : option ChatMessage :=
  match e with EMessage m => Some m | _ => None end.

(** Lines 24-27: [data.flatMap(m => [user entry, response entry]).filter(Boolean)] *)
Definition flatten (data : list Exchange) : list ChatMessage :=
  omap as_message
    (List.filter truthy
       (flat_map (λ m, [EMessage {| role := user; text := message m |};
                        response_entry (response m)]) data)).

(** Lines 15-30 *)
Definition fetchMessages (sid : Z) : Prog unit :=
  token ← getItem "token";
  if negb (JS.truthy_item token) || negb (JS.truthy_number (Some sid)) then Ret tt
  else
    res ← fetch (GET_messages token sid);
    if ok res then
      data ← await_json res;
      setMessages (λ _, flatten data)
    else Ret tt.

(** Lines 33-49; [firstMessage] is [None] when the argument is omitted. *)
Definition handleNewChat (firstMessage : option string) : Prog unit :=
  token ← getItem "token";
  let body := if JS.truthy_item firstMessage then firstMessage else None in
  res ← fetch (POST_sessions token body);
  if ok res then
    data ← await_json res;
    setSessionId (Some data);;
    setItem "activeSession" (JS.String_of data);;
    setMessages (λ _, []);;
    dispatchEvent "sessionsUpdated" None
  else Ret tt.

(** Lines 65-69: the [createNewChat] listener; [handleNewChat()] is
    called without [await]. *)
Definition handleCreateNewChat : Prog unit :=
  setMessages (λ _, []);;
  setSessionId None;;
  detach (handleNewChat None) (Ret tt).

Definition apology_status : string :=
  "I'm having trouble connecting right now. Please try again in a moment.".
Definition apology_network : string :=
  "Sorry, there seems to be a connection issue. Please check your internet and try again.".

(** Lines 118-167: the part of [handleSend] after a session identifier
    is known. *)
Definition send_to (msg : string) (currentSessionId : Z) : Prog unit :=
  setInput "";;
  let userMessage := JS.trim msg in
  setMessages (λ prev, (prev ++ [{| role := user; text := userMessage |}])%list);;
  token ← getItem "token";
  finally
    (try_catch
       (res ← fetch (POST_message token currentSessionId msg);
        if ok res then
          data ← await_json res;
          setMessages (λ prev, (prev ++ [{| role := bot; text := data |}])%list);;
          dispatchEvent "sessionsUpdated" None
        else
          _ ← await_text res;
          setMessages (λ prev, (prev ++ [{| role := bot; text := apology_status |}])%list))
       (setMessages (λ prev, (prev ++ [{| role := bot; text := apology_network |}])%list)))
    (setIsLoading false).

(** Lines 80-168.  [sessionId] is the state captured by the closure
    when the handler is called; in the last branch it is a non-zero
    number, which [default] unwraps. *)
Definition handleSend (msg : string) : Prog unit :=
  sessionId ← read sessionId;
  if negb (JS.truthy_string (JS.trim msg)) then Ret tt
  else
    setIsLoading true;;
    if negb (JS.truthy_number sessionId) then
      token ← getItem "token";
      res ← fetch (POST_sessions token (Some msg));
      if ok res then
        data ← await_json res;
        setSessionId (Some data);;
        setItem "activeSession" (JS.String_of data);;
        dispatchEvent "sessionsUpdated" None;;
        send_to msg data
      else
        setIsLoading false
    else send_to msg (default 0 sessionId).

End ChatScreen.

(** ** SidebarConversationList (src/unnamed/part_001) *)

Module SidebarConversationList.

(** Lines 22-26: the [sessionsUpdated] listener. *)
Definition onSessionsUpdated : Prog unit := setExternalReload S.

(** [data.find((s) => s.id === activeId)] *)
Definition find_active (activeId : option Z) (data : list ChatSession) : option ChatSession :=
  List.find (λ s, match activeId with
                  | Some a => id s =? a
                  | None => false
                  end) data.

(** Lines 29-47.  [activeId] is the state captured by the closure of
    the effect, read before the request is awaited. *)
Definition fetchSessions : Prog unit :=
  activeId ← read activeId;
  token ← getItem "token";
  if negb (JS.truthy_item token) then Ret tt
  else
    res ← fetch (GET_sessions token);
    if ok res then
      data ← await_json res;
      setSessions data;;
      if (negb (JS.truthy_number activeId)
          || negb (JS.truthy_object (find_active activeId data)))
         && (0 <? length data)%nat
      then
        match data with
        | first :: _ =>
            setActiveId (Some (id first));;
            setItem "activeSession" (JS.String_of (id first));;
            dispatchEvent "sessionChange" (Some (id first))
        | [] => Throw (* [data[0].id] on an empty array *)
        end
      else Ret tt
    else Ret tt.

(** Lines 53-57: the sessions shown for the search text. *)
Definition filtered (search : string) (sessions : list ChatSession) : list ChatSession :=
  if JS.truthy_string search then
    List.filter (λ s, JS.includes (JS.toLowerCase (name s)) (JS.toLowerCase search)) sessions
  else sessions.

(** Lines 60-66 *)
Definition handleSelect (id : Z) : Prog unit :=
  setActiveId (Some id);;
  setItem "activeSession" (JS.String_of id);;
  dispatchEvent "sessionChange" (Some id).

(** Lines 95-111: the [onClick] handler of "Yes, clear all". *)
Definition clearAll : Prog unit :=
  setDeleting true;;
  token ← getItem "token";
  if negb (JS.truthy_item token) then Ret tt
  else
    _ ← fetch (DELETE_sessions token);
    setSessions [];;
    setActiveId None;;
    removeItem "activeSession";;
    dispatchEvent "sessionsUpdated" None;;
    dispatchEvent "createNewChat" None;;
    setDeleting false;;
    setShowConfirm false.

End SidebarConversationList.

(** ** ChatInputBar (src/unnamed/part_003) and FeatureCards (src/unnamed/part_002)

    Both receive [ChatScreen.handleSend] as their [onSend] / [onPrompt]
    prop (MainChat), and [input], [isLoading] as the current state of
    [ChatScreen]. *)

Module ChatInputBar.

Definition quickSuggestions : list string :=
  [ "Show me computer science universities";
    "What are visa requirements?";
    "Living costs in London?";
    "Scholarship opportunities";
    "Application deadlines";
    "I want to study engineering" ].

(** Lines 24-32; [onSend] is not awaited. *)
Definition handleSend : Prog unit :=
  input ← read input;
  isLoading ← read isLoading;
  if JS.truthy_string (JS.trim input) && negb isLoading then
    detach (ChatScreen.handleSend (JS.trim input))
      (setInput "";;
       setShowSuggestions false)
  else Ret tt.

(** Lines 45-49 *)
Definition handleSuggestionClick (suggestion : string) : Prog unit :=
  setInput suggestion;;
  setShowSuggestions false;;
  ChatScreen.handleSend suggestion.

(** Lines 35-42; [key] is [e.key].  [e.preventDefault()] acts on the
    DOM event only. *)
Definition handleKeyDown (key : string) : Prog unit :=
  isLoading ← read isLoading;
  if String.eqb key "Enter" && negb isLoading then handleSend
  else if String.eqb key "Escape" then setShowSuggestions false
  else Ret tt.

(** Lines 52-56 *)
Definition handleFocus : Prog unit :=
  input ← read input;
  if negb (JS.truthy_string (JS.trim input)) then setShowSuggestions true
  else Ret tt.

(** Lines 87-96: the [onChange] handler of the text field; [value] is
    [e.target.value]. *)
Definition onChange (value : string) : Prog unit :=
  isLoading ← read isLoading;
  if negb isLoading then
    setInput value;;
    if JS.truthy_string (JS.trim value) then setShowSuggestions false
    else Ret tt
  else Ret tt.

(** Line 106: [disabled={!input.trim() || isLoading}] on the send button. *)
Definition send_disabled (w : World) : bool :=
  negb (JS.truthy_string (JS.trim (input w))) || isLoading w.

End ChatInputBar.

Module FeatureCards.

Record Card := { title : string; desc : string }.

Definition cards : list Card :=
  [ {| title := "Find My University Match";
       desc := "I want to find universities that match my GPA and English scores for Undergraduate/Postgraduate." |};
    {| title := "IELTS Waiver Universities";
       desc := "I have English subject grade B+, which universities offer IELTS waiver?" |};
    {| title := "Scholarships for Nepalese Students";
       desc := "Show me available UK scholarships for Nepalese students." |};
    {| title := "UK Student Visa Requirements";
       desc := "What are the latest document requirements for a UK study visa?" |};
    {| title := "Best Affordable Universities";
       desc := "List the most affordable universities in the UK for international students." |};
    {| title := "Average Living Cost in London";
       desc := "What is the average monthly living cost for a student in London?" |} ].

(** MainChat renders the cards while the transcript is empty. *)
Definition rendered (w : World) : bool :=
  match messages w with [] => true | _ => false end.

(** Line 41: [onClick={() => onPrompt(c.desc)}] *)
Definition onClick (c : Card) : Prog unit := ChatScreen.handleSend (desc c).

End FeatureCards.

(** ** SidebarSettings (src/frontend/src/components/SidebarSettings.tsx) *)

Module SidebarSettings.

Definition colors : list string :=
  [ "#6366f1"; "#10b981"; "#f59e42"; "#f43f5e"; "#6366f1" ].

(** [name.charCodeAt(0)]; [None] is [NaN], for the empty string. *)
Definition charCodeAt0 (name : string) : option nat :=
  match name with
  | EmptyString => None
  | String c _ => Some (nat_of_ascii c)
  end.

(** Lines 5-10: [colors[name.charCodeAt(0) % colors.length]]; [None] is
    [undefined], the element at index [NaN]. *)
Definition getColor (name : string) : option string :=
  match charCodeAt0 name with
  | Some code => colors !! (code mod length colors)%nat
  | None => None
  end.

(** Line 14: [localStorage.getItem("username") || "User"] *)
Definition username (store : gmap string string) : string :=
  match store !! "username" with
  | Some s => if JS.truthy_string s then s else "User"
  | None => "User"
  end.

(** Lines 30-34; the result is the value assigned to
    [window.location.href]. *)
Definition handleLogout : Prog string :=
  removeItem "token";;
  removeItem "username";;
  Ret "/".

End SidebarSettings.

(** ** AuthPage (src/frontend/src/pages/AuthPage.tsx) *)

Module AuthPage.

(** The React state of the page. *)
Record State := {
  username : string;
  email : string;
  password : string;
  isRegister : bool;
  loading : bool
}.

Inductive Endpoint := register | login.

(** The JSON body of the request (lines 25-32). *)
Inductive Payload :=
| Registration (username email password : string)
| ByUsername (username password : string)
| ByEmail (email password : string).

(** What the handler reads out of the parsed answer; [None] is a
    missing field ([undefined]). *)
Record AuthData := {
  token : option string;
  data_username : option string;
  data_email : option string;
  error : option string
}.

(** What the page does to its surroundings, in order. *)
Inductive Action :=
| ToastError (msg : string)
| ToastSuccess (msg : string)
| Post (endpoint : Endpoint) (payload : Payload)
| SetItem (key value : string)
| NavigateAfter (ms : nat) (path : string).

(** The string a [string | undefined] is stored as by [setItem]. *)
Definition stored (v : option string) : string :=
  match v with Some s => s | None => "undefined" end.

(** [a || b] on a [string | undefined] and a string. *)
Definition or_else (a : option string) (b : string) : string :=
  if JS.truthy_item a then default b a else b.

Definition set_loading (v : bool) (st : State) : State :=
  {| username := username st; email := email st; password := password st;
     isRegister := isRegister st; loading := v |}.

Definition apply_action (store : gmap string string) (a : Action) : gmap string string :=
  match a with
  | SetItem k v => <[k:=v]> store
  | _ => store
  end.

(** Lines 20-32 *)
Definition endpoint (st : State) : Endpoint :=
  if isRegister st then register else login.

Definition payload (st : State) : Payload :=
  if isRegister st then Registration (username st) (email st) (password st)
  else if JS.truthy_string (username st) then ByUsername (username st) (password st)
  else ByEmail (email st) (password st).

(** Lines 16-69.  [answer] is what [await fetch(endpoint, ...)] gives
    when the request is made.  The result is the state after the
    handler and what it did, in order; [setLoading(true)] comes first
    and is overwritten on every path. *)
Definition handleSubmit (st : State) (answer : FetchResult AuthData) : State * list Action :=
  if negb (isRegister st)
     && negb (JS.truthy_string (username st)) && negb (JS.truthy_string (email st))
  then (set_loading false st, [ToastError "Enter username or email"])
  else
    let request := Post (endpoint st) (payload st) in
    match answer with
    | NetworkError => (set_loading false st, [request; ToastError "Network error"])
    | Response res =>
        match json res with
        | None => (set_loading false st, [request; ToastError "Network error"])
        | Some data =>
            if negb (ok res) then
              (set_loading false st,
               [request; ToastError (or_else (error data) "Something went wrong")])
            else
              (set_loading false st,
               ([request;
                 SetItem "token" (stored (token data));
                 SetItem "username" (or_else (data_username data) (username st))]
                ++ (if JS.truthy_item (data_email data)
                    then [SetItem "email" (default "" (data_email data))] else [])
                ++ [ToastSuccess (if isRegister st then "Registration successful!"
                                  else "Login successful!");
                    NavigateAfter 900 "/chat"])%list)
        end
    end.

(** Lines 187-196 of the form: the [onChange] handler of the single
    "username or email" field shown for login. *)
Definition onChangeUserOrEmail (value : string) (st : State) : State :=
  if JS.includes value "@" then
    {| username := ""; email := value; password := password st;
       isRegister := isRegister st; loading := loading st |}
  else
    {| username := value; email := ""; password := password st;
       isRegister := isRegister st; loading := loading st |}.

(** The value shown in that field: [value={username || email}]. *)
Definition userOrEmail (st : State) : string :=
  if JS.truthy_string (username st) then username st else email st.

(** The "Login" link: [setIsRegister(false)]. *)
Definition switchToLogin (st : State) : State :=
  {| username := username st; email := email st; password := password st;
     isRegister := false; loading := loading st |}.

(** The "Register" link: [setIsRegister(true); setUsername(""); setEmail("")]. *)
Definition switchToRegister (st : State) : State :=
  {| username := ""; email := ""; password := password st;
     isRegister := true; loading := loading st |}.

End AuthPage.

(** ** Reading the effect log *)

(** The requests issued, in order. *)
Definition requests (evs : list Event) : list Request :=
  omap (λ e, match e with EvFetch r => Some r | _ => None end) evs.

(** The publications on the bus, in order. *)
Definition publications (evs : list Event) : list (string * option Z) :=
  omap (λ e, match e with EvDispatch t d => Some (t, d) | _ => None end) evs.

Definition is_create (r : Request) : bool :=
  match r with POST_sessions _ _ => true | _ => false end.
Definition is_send (r : Request) : bool :=
  match r with POST_message _ _ _ => true | _ => false end.



(** ** Vocabulary of the specification *)

Module Spec.

(** The flattening in the words of the specification: for each pair,
    a user entry for the message followed by an assistant entry for
    the response, the latter only when the response is not null. *)
Definition flatten_as_specified (data : list Exchange) : list ChatMessage :=
  flat_map (λ m, {| role := user; text := message m |} ::
                 match response m with
                 | Some r => [{| role := bot; text := r |}]
                 | None => []
                 end) data.

(** What one pair contributes in the code: the assistant entry needs
    a response that is neither null nor empty. *)
Definition entries_of (m : Exchange) : list ChatMessage :=
  {| role := user; text := message m |} ::
  match response m with
  | Some r => if JS.isEmpty r then [] else [{| role := bot; text := r |}]
  | None => []
  end.

(** A world right after login: a credential in the store, nothing
    else, no session. *)
Definition fresh : World :=
  {| localStorage := {[ "token" := "t0k3n" ]};
     messages := []; input := ""; sessionId := None; isLoading := false;
     sessions := []; activeId := None; showConfirm := false; deleting := false;
     externalReload := 0%nat; showSuggestions := false; log := [] |}.

(** A signed-in world in which one session is listed, active and
    stored, and the clear-all confirmation is open. *)
Definition one_session : World :=
  {| localStorage := {[ "token" := "t0k3n"; "activeSession" := "1" ]};
     messages := []; input := ""; sessionId := Some 1; isLoading := false;
     sessions := [ {| id := 1; name := "Visa" |} ]; activeId := Some 1;
     showConfirm := true; deleting := false;
     externalReload := 0%nat; showSuggestions := false; log := [] |}.

(** A backend that is unreachable. *)
Definition offline : Oracle := λ r, NetworkError.

(** A backend described by its answer to each kind of request. *)
Record Backend := {
  on_list : FetchResult (list ChatSession);
  on_create : FetchResult Z;
  on_history : FetchResult (list Exchange);
  on_send : FetchResult string;
  on_clear : FetchResult unit
}.

Definition serve (b : Backend) : Oracle :=
  λ r, match r as r0 return FetchResult (Data r0) with
       | GET_sessions _ => on_list b
       | POST_sessions _ _ => on_create b
       | GET_messages _ _ => on_history b
       | POST_message _ _ _ => on_send b
       | DELETE_sessions _ => on_clear b
       end.

(** A backend that only answers session creation and send. *)
Definition answering (create : FetchResult Z) (send : FetchResult string) : Oracle :=
  serve {| on_list := NetworkError; on_create := create; on_history := NetworkError;
           on_send := send; on_clear := NetworkError |}.

(** A 2xx response carrying [d]. *)
Definition success {D : Type} (d : D) : FetchResult D :=
  Response {| ok := true; json := Some d; body_text := None |}.

(** A non-2xx response with an error body. *)
Definition refused {D : Type} : FetchResult D :=
  Response {| ok := false; json := None; body_text := Some "error" |}.

(** A request fails: the transport rejects it, or the status is not 2xx. *)
Definition failed {D : Type} (x : FetchResult D) : Prop :=
  match x with
  | NetworkError => True
  | Response res => ok res = false
  end.

(** The events a run has appended to the log. *)
Definition events_since (w w' : World) : list Event :=
  drop (length (log w)) (log w').


(** The operations that change the active session or create one. *)
Inductive Operation :=
| Select (id : Z)
| AutoSelect
| NewChat (firstMessage : option string)
| ImplicitCreate (msg : string).

Definition handler (op : Operation) : Prog unit :=
  match op with
  | Select id => SidebarConversationList.handleSelect id
  | AutoSelect => SidebarConversationList.fetchSessions
  | NewChat firstMessage => ChatScreen.handleNewChat firstMessage
  | ImplicitCreate msg => ChatScreen.handleSend msg
  end.


(** A suspended handler receives the answer to its request and runs
    up to its next suspension point. *)
Definition resume {A : Type} (s : Status A) (o : Oracle) (w : World) : World * Status A :=
  match s with
  | Settled out => (w, Settled out)
  | Waiting r k => start (k (o r)) w
  end.


(** The last feature card. *)
Definition living_cost : FeatureCards.Card :=
  {| FeatureCards.title := "Average Living Cost in London";
     FeatureCards.desc := "What is the average monthly living cost for a student in London?" |}.

(** A feature card is clicked twice in a fresh world before the first
    click's request is answered; then the backend answers the first
    creation request with session 1 and the second with session 2. *)
Definition first_click : World * Status unit :=
  start (FeatureCards.onClick living_cost) fresh.

Definition second_click : World * Status unit :=
  start (FeatureCards.onClick living_cost) first_click.1.

Definition first_created : World * Status unit :=
  resume first_click.2 (answering (success 1) NetworkError) second_click.1.

Definition second_created : World * Status unit :=
  resume second_click.2 (answering (success 2) NetworkError) first_created.1.

End Spec.

(** ** Views of the transcript and of the fetched pairs *)

Module View.

(** The texts of the entries of one role, in order. *)
Definition texts (r : Role) (l : list ChatMessage) : list string :=
  map text (List.filter (λ m, bool_decide (role m = r)) l).

(** The responses that are neither null nor empty, in order. *)
Definition replies (data : list Exchange) : list string :=
  omap (λ m, match response m with
             | Some r => if JS.isEmpty r then None else Some r
             | None => None
             end) data.

(** The identifiers of the listed sessions. *)
Definition ids (l : list ChatSession) : list Z := map id l.

(** The store after the actions of the authentication page. *)
Definition store_after (store : gmap string string) (acts : list AuthPage.Action)
  : gmap string string :=
  foldl AuthPage.apply_action store acts.

(** The requests among the actions of the authentication page. *)
Definition posts (acts : list AuthPage.Action) : list (AuthPage.Endpoint * AuthPage.Payload) :=
  omap (λ a, match a with AuthPage.Post e p => Some (e, p) | _ => None end) acts.

(** The navigations the authentication page has scheduled. *)
Definition navigations (acts : list AuthPage.Action) : list (nat * string) :=
  omap (λ a, match a with AuthPage.NavigateAfter ms path => Some (ms, path) | _ => None end)
    acts.

(** The answer is a 2xx response with a parsable body. *)
Definition accepted {D : Type} (answer : FetchResult D) : bool :=
  match answer with
  | NetworkError => false
  | Response res => ok res && JS.truthy_object (json res)
  end.

End View.

(** ** Semantics of handler programs *)

Section Semantics.

Context (o : Oracle).

(** Running to completion is starting, then answering the pending
    request and running on. *)
Lemma run_start {A : Type} (p : Prog A) (w : World) :
  run p o w
  = match start p w with
    | (w', Settled out) => (w', out)
    | (w', Waiting r k) => run (k (o r)) o w'
    end.
Proof.
  revert w. induction p as [a| |f k IH|k IH|r k IH]; intros w; simpl; auto.
Qed.

(** Sequencing: the second program runs in the world the first one
    leaves, unless the first one throws. *)
Lemma run_bind {A B : Type} (p : Prog A) (f : A → Prog B) (w : World) :
  run (bind p f) o w
  = match run p o w with
    | (w', Resolved a) => run (f a) o w'
    | (w', Rejected) => (w', Rejected)
    end.
Proof.
  revert w. induction p as [a| |g k IH|k IH|r k IH]; intros w; simpl; auto.
Qed.

(** [catch] runs the handler in the world where the body threw. *)
Lemma run_try_catch {A : Type} (body handler : Prog A) (w : World) :
  run (try_catch body handler) o w
  = match run body o w with
    | (w', Resolved a) => (w', Resolved a)
    | (w', Rejected) => run handler o w'
    end.
Proof.
  revert w. induction body as [a| |g k IH|k IH|r k IH]; intros w; simpl; auto.
Qed.

(** [finally] runs the cleanup on both exits and keeps the outcome of
    the body when the cleanup returns. *)
Lemma run_finally {A : Type} (body : Prog A) (cleanup : Prog unit) (w : World) :
  run (finally body cleanup) o w
  = match run body o w with
    | (w', out) =>
        match run cleanup o w' with
        | (w'', Resolved _) => (w'', out)
        | (w'', Rejected) => (w'', Rejected)
        end
    end.
Proof.
  revert w. induction body as [a| |g k IH|k IH|r k IH]; intros w; simpl; auto.
  - rewrite run_bind. by destruct (run cleanup o w) as [w' [[]|]].
  - rewrite run_bind. by destruct (run cleanup o w) as [w' [[]|]].
Qed.

End Semantics.

(** ** The definitions on concrete inputs *)

Example trim_both_ends : JS.trim "  hi there   " = "hi there".
Proof. reflexivity. Qed.

Example trim_blank : JS.trim "   " = "".
Proof. reflexivity. Qed.

Example String_of_42 : JS.String_of 42 = "42".
Proof. reflexivity. Qed.

Example String_of_negative : JS.String_of (-3) = "-3".
Proof. reflexivity. Qed.

Example zero_is_no_session : JS.truthy_number (Some 0) = false.
Proof. reflexivity. Qed.

(** The [createNewChat] listener empties the transcript, forgets the
    session and has a creation request without first message under way. *)
Example create_new_chat_listener :
  let '(w, s) := start ChatScreen.handleCreateNewChat Spec.one_session in
  messages w = [] ∧ sessionId w = None
  ∧ pending s = Some (POST_sessions (Some "t0k3n") None).
Proof. by vm_compute. Qed.

(** The input bar clears the input right after the call of [onSend],
    before the request is answered. *)
Example input_bar_send :
  let '(w, s) := start ChatInputBar.handleSend
                   (with_input " fees? " (with_sessionId (Some 7) Spec.fresh)) in
  input w = "" ∧ isLoading w = true
  ∧ messages w = [ {| role := user; text := "fees?" |} ]
  ∧ pending s = Some (POST_message (Some "t0k3n") 7 "fees?").
Proof. by vm_compute. Qed.

(** ** Properties of [trim] *)

Section Trim.

Lemma trimEnd_empty_blank (s : string) :
  JS.trimEnd s = EmptyString → JS.blank s = true.
Proof.
  induction s as [|c s IH]; simpl; [done|].
  destruct (JS.isWhiteSpace c); simpl; [|done].
  destruct (JS.trimEnd s); simpl; [auto|done].
Qed.

Lemma trimStart_blank (s : string) :
  JS.blank s = true → JS.trimStart s = EmptyString.
Proof.
  induction s as [|c s IH]; simpl; [done|].
  destruct (JS.isWhiteSpace c); simpl; [auto|done].
Qed.

Lemma blank_trimStart (s : string) :
  JS.blank (JS.trimStart s) = true → JS.blank s = true.
Proof.
  induction s as [|c s IH]; simpl; [done|].
  destruct (JS.isWhiteSpace c) eqn:Hc; simpl; [auto|].
  by rewrite Hc.
Qed.

(** [!msg.trim()] holds exactly for the strings made of white space. *)
Lemma trim_falsy_iff_blank (s : string) :
  JS.truthy_string (JS.trim s) = false ↔ JS.blank s = true.
Proof.
  unfold JS.truthy_string, JS.trim. split.
  - intros H. apply blank_trimStart, trimEnd_empty_blank.
    by destruct (JS.trimEnd (JS.trimStart s)).
  - intros H. by rewrite (trimStart_blank _ H).
Qed.

End Trim.

(** ** Transcript flattening *)

Section Flatten.

Lemma flatten_cons (m : Exchange) (data : list Exchange) :
  ChatScreen.flatten (m :: data) = (Spec.entries_of m ++ ChatScreen.flatten data)%list.
Proof.
  unfold ChatScreen.flatten, Spec.entries_of. simpl.
  destruct (response m) as [r|]; simpl; [|done].
  destruct r; simpl; done.
Qed.

Lemma flatten_app (d1 d2 : list Exchange) :
  ChatScreen.flatten (d1 ++ d2) = (ChatScreen.flatten d1 ++ ChatScreen.flatten d2)%list.
Proof.
  induction d1 as [|m d1 IH]; [done|].
  rewrite <- app_comm_cons, !flatten_cons, IH. by rewrite app_assoc.
Qed.

Lemma flatten_entries (data : list Exchange) :
  ChatScreen.flatten data = flat_map Spec.entries_of data.
Proof.
  induction data as [|m data IH]; [done|].
  rewrite flatten_cons, IH. done.
Qed.

(** On a 2xx answer, [fetchMessages] replaces the transcript by the
    flattening of the fetched pairs. *)
Lemma fetchMessages_replaces_transcript
    (o : Oracle) (w : World) (tok : string) (sid : Z)
    (data : list Exchange) (bt : option string) :
  localStorage w !! "token" = Some tok →
  tok ≠ "" →
  sid ≠ 0 →
  o (GET_messages (Some tok) sid)
    = Response {| ok := true; json := Some data; body_text := bt |} →
  messages (run (ChatScreen.fetchMessages sid) o w).1 = ChatScreen.flatten data.
Proof.
  intros Htok Hne Hsid Ho. unfold ChatScreen.fetchMessages. cbn.
  rewrite Htok. destruct tok as [|c tok]; [done|]. cbn.
  destruct (Z.eqb_spec sid 0) as [|_]; [done|]. cbn.
  by rewrite Ho.
Qed.

End Flatten.

(** C2, as stated, fails: a pair whose response is the empty string
    yields an assistant entry in the flattening the specification
    describes, and none in the code. *)
Lemma C2_flatten_empty_response_differs :
  ChatScreen.flatten [{| message := "A"; response := Some "" |}]
  = [ {| role := user; text := "A" |} ]
  ∧ Spec.flatten_as_specified [{| message := "A"; response := Some "" |}]
    = [ {| role := user; text := "A" |}; {| role := bot; text := "" |} ]
  ∧ ChatScreen.flatten [{| message := "A"; response := Some "" |}]
    ≠ Spec.flatten_as_specified [{| message := "A"; response := Some "" |}].
Proof. repeat split. vm_compute. discriminate. Qed.

(** C2, amended: the transcript derived from any list of exchange pairs
    is the concatenation, in order, of a user entry for the message
    followed by an assistant entry for the response, where a pair whose
    response is null or the empty string contributes only the user
    entry; the pairs A/B, C/null flatten to user A, assistant B, user C. *)
Theorem C2_flatten_by_pairs (data : list Exchange) :
  ChatScreen.flatten data = flat_map Spec.entries_of data
  ∧ ChatScreen.flatten [ {| message := "A"; response := Some "B" |};
                         {| message := "C"; response := None |} ]
    = [ {| role := user; text := "A" |};
        {| role := bot; text := "B" |};
        {| role := user; text := "C" |} ].
Proof.
  split; [apply flatten_entries|reflexivity].
Qed.

(** C10: a fetched pair whose response is the empty string contributes
    only its user entry to the transcript, wherever it stands in the
    fetched list; so does a pair whose response is null. *)
Theorem C10_empty_response_dropped (before after : list Exchange) (msg : string) :
  ChatScreen.flatten (before ++ {| message := msg; response := Some "" |} :: after)
  = (ChatScreen.flatten before ++ {| role := user; text := msg |} :: ChatScreen.flatten after)%list
  ∧ ChatScreen.flatten (before ++ {| message := msg; response := None |} :: after)
  = (ChatScreen.flatten before ++ {| role := user; text := msg |} :: ChatScreen.flatten after)%list.
Proof.
  split; rewrite flatten_app, flatten_cons; reflexivity.
Qed.

(** The JavaScript helpers are kept folded during symbolic execution. *)
Arguments JS.trim : simpl never.
Arguments JS.blank : simpl never.
Arguments JS.truthy_string : simpl never.
Arguments JS.truthy_item : simpl never.
Arguments JS.truthy_number : simpl never.
Arguments JS.truthy_object : simpl never.
Arguments JS.String_of : simpl never.
Arguments SidebarConversationList.find_active : simpl never.
Arguments ChatScreen.send_to : simpl never.

(** ** Blank input *)

(** C7: sending a text made only of white space (the empty string
    included) changes nothing: the world after the call is the world
    before it, so the transcript, the state, the store and the log of
    requests and publications are untouched, and the call returns
    normally without ever waiting for the network. *)
Theorem C7_blank_send_is_noop (msg : string) (o : Oracle) (w : World) :
  JS.blank msg = true →
  run (ChatScreen.handleSend msg) o w = (w, Resolved tt)
  ∧ start (ChatScreen.handleSend msg) w = (w, Settled (Resolved tt)).
Proof.
  intros Hblank. apply trim_falsy_iff_blank in Hblank.
  unfold ChatScreen.handleSend. cbn. rewrite Hblank. cbn. done.
Qed.

Lemma C7_blank_send_witness :
  JS.blank "   " = true
  ∧ run (ChatScreen.handleSend "   ") Spec.offline Spec.fresh = (Spec.fresh, Resolved tt)
  ∧ start (ChatScreen.handleSend "   ") Spec.fresh = (Spec.fresh, Settled (Resolved tt)).
Proof.
  split; [reflexivity|].
  apply (C7_blank_send_is_noop "   " Spec.offline Spec.fresh). reflexivity.
Defined.

(** ** Auto-selection after a directory fetch *)

Section Directory.

Lemma find_active_absent (a : Z) (data : list ChatSession) :
  (∀ s, s ∈ data → id s ≠ a) →
  SidebarConversationList.find_active (Some a) data = None.
Proof.
  intros Hne. unfold SidebarConversationList.find_active.
  induction data as [|s data IH]; [done|]. simpl.
  destruct (Z.eqb_spec (id s) a) as [Heq|_].
  - exfalso. apply (Hne s); [left|done].
  - apply IH. intros s' Hs'. apply Hne. by right.
Qed.

Lemma truthy_item_Some (tok : string) :
  tok ≠ "" → JS.truthy_item (Some tok) = true.
Proof. by destruct tok. Qed.

End Directory.

(** C1: when a directory fetch succeeds (a credential is stored, the
    response is 2xx and carries the session list) and the Directory's
    active identifier is absent or is the identifier of none of the
    fetched sessions, the first fetched session becomes the active
    identifier, is written to the store under the active-session key,
    and a [sessionChange] notification carrying it is published. *)
Theorem C1_auto_select_first
    (o : Oracle) (w : World) (tok : string) (bt : option string)
    (first : ChatSession) (rest : list ChatSession) :
  localStorage w !! "token" = Some tok →
  tok ≠ "" →
  o (GET_sessions (Some tok))
    = Response {| ok := true; json := Some (first :: rest); body_text := bt |} →
  (activeId w = None ∨ ∃ a, activeId w = Some a ∧ ∀ s, s ∈ first :: rest → id s ≠ a) →
  ∃ w', run SidebarConversationList.fetchSessions o w = (w', Resolved tt)
    ∧ sessions w' = first :: rest
    ∧ activeId w' = Some (id first)
    ∧ localStorage w' = <["activeSession" := JS.String_of (id first)]> (localStorage w)
    ∧ Spec.events_since w w'
      = [ EvFetch (GET_sessions (Some tok));
          EvSetItem "activeSession" (JS.String_of (id first));
          EvDispatch "sessionChange" (Some (id first)) ].
Proof.
  intros Htok Hne Ho Hact. unfold SidebarConversationList.fetchSessions. cbn.
  rewrite Htok, (truthy_item_Some _ Hne). cbn. rewrite Ho. cbn.
  assert (negb (JS.truthy_number (activeId w))
          || negb (JS.truthy_object
                     (SidebarConversationList.find_active (activeId w) (first :: rest)))
          = true) as ->.
  { destruct Hact as [->|(a & -> & Ha)]; [done|].
    rewrite (find_active_absent _ _ Ha). apply orb_true_r. }
  cbn. eexists. split; [reflexivity|]. cbn.
  repeat split. unfold Spec.events_since. cbn.
  rewrite <- !app_assoc. by rewrite drop_app_length.
Qed.

Lemma C1_auto_select_witness :
  ∃ w', run SidebarConversationList.fetchSessions
          (Spec.serve {| Spec.on_list := Spec.success [ {| id := 4; name := "Visa" |};
                                                        {| id := 9; name := "Fees" |} ];
                         Spec.on_create := NetworkError; Spec.on_history := NetworkError;
                         Spec.on_send := NetworkError; Spec.on_clear := NetworkError |})
          (with_activeId (Some 7) Spec.fresh) = (w', Resolved tt)
    ∧ sessions w' = [ {| id := 4; name := "Visa" |}; {| id := 9; name := "Fees" |} ]
    ∧ activeId w' = Some 4
    ∧ localStorage w' = <["activeSession" := JS.String_of 4]> {[ "token" := "t0k3n" ]}
    ∧ Spec.events_since (with_activeId (Some 7) Spec.fresh) w'
      = [ EvFetch (GET_sessions (Some "t0k3n"));
          EvSetItem "activeSession" (JS.String_of 4);
          EvDispatch "sessionChange" (Some 4) ].
Proof.
  apply (C1_auto_select_first _ (with_activeId (Some 7) Spec.fresh) "t0k3n" None
           {| id := 4; name := "Visa" |} [ {| id := 9; name := "Fees" |} ]).
  - reflexivity.
  - discriminate.
  - reflexivity.
  - right. exists 7. split; [reflexivity|].
    intros s Hs. apply list_elem_of_In in Hs. simpl in Hs.
    destruct Hs as [<-|[<-|[]]]; simpl; lia.
Defined.

(** ** Sending a message *)

Section Send.

Context (msg : string) (o : Oracle).

Lemma trim_truthy :
  JS.blank msg = false → JS.truthy_string (JS.trim msg) = true.
Proof.
  intros Hnb. destruct (JS.truthy_string (JS.trim msg)) eqn:Ht; [done|].
  apply trim_falsy_iff_blank in Ht. congruence.
Qed.

Lemma events_since_app (w w' : World) (evs : list Event) :
  log w' = (log w ++ evs)%list → Spec.events_since w w' = evs.
Proof. unfold Spec.events_since. intros ->. by rewrite drop_app_length. Qed.

(** Every run of [send_to] resolves, clears the busy flag and appends
    the user entry followed by exactly one assistant entry; the only
    request is the send request. *)
Lemma send_to_runs (sid : Z) (w : World) :
  ∃ w' reply evs,
    run (ChatScreen.send_to msg sid) o w = (w', Resolved tt)
    ∧ messages w' = (messages w ++ [ {| role := user; text := JS.trim msg |};
                                     {| role := bot; text := reply |} ])%list
    ∧ (Spec.failed (o (POST_message (localStorage w !! "token") sid msg)) →
       reply = ChatScreen.apology_status ∨ reply = ChatScreen.apology_network)
    ∧ isLoading w' = false
    ∧ sessionId w' = sessionId w
    ∧ localStorage w' = localStorage w
    ∧ log w' = (log w ++ evs)%list
    ∧ (evs = [ EvFetch (POST_message (localStorage w !! "token") sid msg) ]
       ∨ evs = [ EvFetch (POST_message (localStorage w !! "token") sid msg);
                 EvDispatch "sessionsUpdated" None ]).
Proof.
  unfold ChatScreen.send_to. cbn.
  destruct (o (POST_message (localStorage w !! "token") sid msg))
    as [|[[] [answer|] [body|]]] eqn:Ho; cbn;
    eexists _, _, _; (split; [reflexivity|]); cbn;
    rewrite <- ?app_assoc; cbn;
    (repeat split; try done; try (intros _; auto; fail); auto).
Qed.

End Send.



(** C5: for a non-blank text sent while a session is active, when the
    send request fails (the transport rejects it, or the status is not
    2xx), the call returns normally; afterwards the transcript is the
    previous one followed by the user entry and exactly one assistant
    entry carrying one of the two apology texts, the busy flag is
    cleared and the session is still the active one. *)
Theorem C5_send_failure_contained
    (msg : string) (o : Oracle) (w : World) (sid : Z) :
  JS.blank msg = false →
  sessionId w = Some sid →
  sid ≠ 0 →
  Spec.failed (o (POST_message (localStorage w !! "token") sid msg)) →
  ∃ w' apology,
    run (ChatScreen.handleSend msg) o w = (w', Resolved tt)
    ∧ (apology = ChatScreen.apology_status ∨ apology = ChatScreen.apology_network)
    ∧ messages w' = (messages w ++ [ {| role := user; text := JS.trim msg |};
                                     {| role := bot; text := apology |} ])%list
    ∧ isLoading w' = false
    ∧ sessionId w' = Some sid.
Proof.
  intros Hnb Hsid Hnz Hfail. unfold ChatScreen.handleSend. cbn.
  rewrite (trim_truthy _ Hnb), Hsid.
  replace (JS.truthy_number (Some sid)) with true
    by (unfold JS.truthy_number; by destruct (Z.eqb_spec sid 0)).
  cbn.
  match goal with |- context [run (ChatScreen.send_to msg sid) o ?w1] =>
    destruct (send_to_runs msg o sid w1)
      as (w' & reply & evs & Hrun & Hmsgs & Hreply & Hload & Hsid' & _)
  end.
  cbn in Hmsgs, Hreply, Hsid'.
  exists w', reply. rewrite Hsid' , Hsid. auto 10.
Qed.

Lemma C5_send_failure_witness :
  ∃ w' apology,
    run (ChatScreen.handleSend "fees?") Spec.offline (with_sessionId (Some 7) Spec.fresh)
      = (w', Resolved tt)
    ∧ (apology = ChatScreen.apology_status ∨ apology = ChatScreen.apology_network)
    ∧ messages w' = (messages (with_sessionId (Some 7) Spec.fresh)
                       ++ [ {| role := user; text := JS.trim "fees?" |};
                            {| role := bot; text := apology |} ])%list
    ∧ isLoading w' = false
    ∧ sessionId w' = Some 7.
Proof.
  apply (C5_send_failure_contained "fees?" Spec.offline (with_sessionId (Some 7) Spec.fresh) 7).
  - reflexivity.
  - reflexivity.
  - lia.
  - exact I.
Defined.

(** C6: for a non-blank text sent while no session is active, when the
    session-creation request fails (the transport rejects it, or the
    status is not 2xx), the send is abandoned: the creation request is
    the only effect, so no send request is issued and nothing is
    published; the transcript, the controller's session identifier and
    the store are what they were.  After a non-2xx answer the call
    returns normally with the busy flag cleared; after a transport
    rejection the call itself is rejected and the busy flag stays set. *)
Theorem C6_creation_failure_aborts (msg : string) (o : Oracle) (w : World) :
  JS.blank msg = false →
  JS.truthy_number (sessionId w) = false →
  Spec.failed (o (POST_sessions (localStorage w !! "token") (Some msg))) →
  ∃ w' out,
    run (ChatScreen.handleSend msg) o w = (w', out)
    ∧ messages w' = messages w
    ∧ sessionId w' = sessionId w
    ∧ localStorage w' = localStorage w
    ∧ Spec.events_since w w'
      = [ EvFetch (POST_sessions (localStorage w !! "token") (Some msg)) ]
    ∧ match o (POST_sessions (localStorage w !! "token") (Some msg)) with
      | Response _ => out = Resolved tt ∧ isLoading w' = false
      | NetworkError => out = Rejected ∧ isLoading w' = true
      end.
Proof.
  intros Hnb Hnone Hfail. unfold ChatScreen.handleSend. cbn.
  rewrite (trim_truthy _ Hnb), Hnone. cbn.
  destruct (o (POST_sessions (localStorage w !! "token") (Some msg)))
    as [|[okr js bt]] eqn:Ho; cbn in *.
  - eexists _, _. split; [reflexivity|]. cbn.
    repeat split; try done. by apply events_since_app.
  - rewrite Hfail. cbn.
    eexists _, _. split; [reflexivity|]. cbn.
    repeat split; try done. by apply events_since_app.
Qed.

Lemma C6_creation_failure_witness :
  ∃ w' out,
    run (ChatScreen.handleSend "hello")
      (Spec.answering Spec.refused (Spec.success "Hi!"))
      Spec.fresh = (w', out)
    ∧ messages w' = messages Spec.fresh
    ∧ sessionId w' = sessionId Spec.fresh
    ∧ localStorage w' = localStorage Spec.fresh
    ∧ Spec.events_since Spec.fresh w'
      = [ EvFetch (POST_sessions (localStorage Spec.fresh !! "token") (Some "hello")) ]
    ∧ out = Resolved tt ∧ isLoading w' = false.
Proof.
  exact (C6_creation_failure_aborts "hello"
           (Spec.answering Spec.refused (Spec.success "Hi!")) Spec.fresh
           eq_refl eq_refl eq_refl).
Defined.

(** ** Clearing all sessions *)




(** ** Write first, publish second *)

Ltac since :=
  match goal with
  | |- context [Spec.events_since ?w ?w'] =>
      erewrite (events_since_app w w');
        [|first [symmetry; apply app_nil_r | cbn; rewrite <- ?app_assoc; reflexivity]]
  end.





(** ** Sends while a send is outstanding *)

Section Busy.

(** The input bar drops a send while the busy flag is set. *)
Lemma input_bar_ignores_while_loading (w : World) :
  isLoading w = true →
  start ChatInputBar.handleSend w = (w, Settled (Resolved tt)).
Proof.
  intros Hbusy. unfold ChatInputBar.handleSend. cbn.
  rewrite Hbusy, andb_false_r. done.
Qed.

(** A suggestion click reaches the backend although the busy flag is
    set: the handler is suspended on a new send request. *)
Lemma suggestion_click_not_ignored (w : World) (sid : Z) (suggestion : string) :
  isLoading w = true →
  sessionId w = Some sid →
  sid ≠ 0 →
  JS.blank suggestion = false →
  ∃ w' k,
    start (ChatInputBar.handleSuggestionClick suggestion) w
      = (w', Waiting (POST_message (localStorage w !! "token") sid suggestion) k)
    ∧ log w' = (log w ++ [ EvFetch (POST_message (localStorage w !! "token") sid suggestion) ])%list
    ∧ messages w' = (messages w ++ [ {| role := user; text := JS.trim suggestion |} ])%list.
Proof.
  intros _ Hsid Hnz Hnb.
  unfold ChatInputBar.handleSuggestionClick, ChatScreen.handleSend, ChatScreen.send_to.
  cbn. rewrite (trim_truthy _ Hnb), Hsid.
  replace (JS.truthy_number (Some sid)) with true
    by (unfold JS.truthy_number; by destruct (Z.eqb_spec sid 0)).
  cbn. eexists _, _. split; [reflexivity|]. done.
Qed.

End Busy.

(** C9 does not hold of the code: [ChatScreen.handleSend] never looks
    at the busy flag, and only the input bar checks it.  A feature card
    clicked twice in a fresh world: the first click sets the busy flag
    and waits for its session creation while the cards are still
    rendered; the second click is not ignored and issues a second
    creation; once both are answered, two send requests, to sessions 1
    and 2, are outstanding at the same time. *)
Theorem C9_second_send_not_ignored :
  Spec.living_cost ∈ FeatureCards.cards
  ∧ isLoading Spec.first_click.1 = true
  ∧ FeatureCards.rendered Spec.first_click.1 = true
  ∧ pending Spec.first_click.2
    = Some (POST_sessions (Some "t0k3n") (Some (FeatureCards.desc Spec.living_cost)))
  ∧ pending Spec.second_click.2
    = Some (POST_sessions (Some "t0k3n") (Some (FeatureCards.desc Spec.living_cost)))
  ∧ pending Spec.first_created.2
    = Some (POST_message (Some "t0k3n") 1 (FeatureCards.desc Spec.living_cost))
  ∧ pending Spec.second_created.2
    = Some (POST_message (Some "t0k3n") 2 (FeatureCards.desc Spec.living_cost))
  ∧ List.filter is_send (requests (log Spec.second_created.1))
    = [ POST_message (Some "t0k3n") 1 (FeatureCards.desc Spec.living_cost);
        POST_message (Some "t0k3n") 2 (FeatureCards.desc Spec.living_cost) ]
  ∧ messages Spec.second_created.1
    = [ {| role := user; text := FeatureCards.desc Spec.living_cost |};
        {| role := user; text := FeatureCards.desc Spec.living_cost |} ].
Proof.
  split; [|by vm_compute].
  do 5 (apply elem_of_cons; right). apply elem_of_cons. by left.
Qed.

(** * Further properties of the components *)

(** ** The flattened transcript *)

Lemma texts_app (r : Role) (l1 l2 : list ChatMessage) :
  View.texts r (l1 ++ l2) = (View.texts r l1 ++ View.texts r l2)%list.
Proof. unfold View.texts. by rewrite List.filter_app, map_app. Qed.

(** X1: the user entries of the flattened transcript are the messages
    of the fetched pairs, one per pair and in order; its assistant
    entries are the responses that are neither null nor empty, in
    order. *)
Theorem flatten_requests_and_replies (data : list Exchange) :
  View.texts user (ChatScreen.flatten data) = map message data
  ∧ View.texts bot (ChatScreen.flatten data) = View.replies data.
Proof.
  rewrite flatten_entries.
  induction data as [|m data [IHu IHb]]; [done|].
  cbn [flat_map]. rewrite !texts_app, IHu, IHb.
  unfold Spec.entries_of. split.
  - destruct (response m) as [[|c r]|]; reflexivity.
  - unfold View.replies. simpl. destruct (response m) as [[|c r]|]; reflexivity.
Qed.

(** X2: in the flattened transcript an assistant entry is never first
    and never follows another assistant entry: the entry just before it
    is a user entry. *)
Theorem flatten_reply_follows_request (data : list Exchange) (i : nat) (e : ChatMessage) :
  ChatScreen.flatten data !! i = Some e →
  role e = bot →
  ∃ j u, i = S j ∧ ChatScreen.flatten data !! j = Some u ∧ role u = user.
Proof.
  revert i. induction data as [|m data IH]; intros i; [done|].
  rewrite flatten_cons. unfold Spec.entries_of.
  destruct (response m) as [[|c r]|]; simpl.
  - destruct i as [|i]; simpl; [by intros [= <-]|].
    intros Hi He. destruct (IH i Hi He) as (j & u & -> & Hj & Hu).
    exists (S j), u. done.
  - destruct i as [|[|i]]; simpl; [by intros [= <-]| |].
    + intros _ _. exists 0%nat, {| role := user; text := message m |}. done.
    + intros Hi He. destruct (IH i Hi He) as (j & u & -> & Hj & Hu).
      exists (S (S j)), u. done.
  - destruct i as [|i]; simpl; [by intros [= <-]|].
    intros Hi He. destruct (IH i Hi He) as (j & u & -> & Hj & Hu).
    exists (S j), u. done.
Qed.

Lemma flatten_reply_follows_request_witness :
  ∃ j u, 1%nat = S j
    ∧ ChatScreen.flatten [ {| message := "A"; response := Some "B" |};
                           {| message := "C"; response := None |} ] !! j = Some u
    ∧ role u = user.
Proof.
  apply (flatten_reply_follows_request
           [ {| message := "A"; response := Some "B" |};
             {| message := "C"; response := None |} ]
           1 {| role := bot; text := "B" |}); reflexivity.
Defined.

(** The flattened transcript has at least as many entries as there
    are fetched pairs and at most twice as many. *)
Theorem flatten_length_bounds (data : list Exchange) :
  (length data ≤ length (ChatScreen.flatten data) ≤ 2 * length data)%nat.
Proof.
  rewrite flatten_entries.
  induction data as [|m data IH]; [simpl; lia|].
  cbn [flat_map]. rewrite length_app.
  assert (1 ≤ length (Spec.entries_of m) ≤ 2)%nat
    by (unfold Spec.entries_of; destruct (response m) as [[|c r]|]; simpl; lia).
  change (length (m :: data)) with (S (length data)). lia.
Qed.

(** ** Fetching the transcript *)

(** Without a stored credential, or for the session identifier 0,
    [fetchMessages] does nothing at all: no request leaves and the
    world is unchanged. *)
Theorem fetchMessages_guard (sid : Z) (o : Oracle) (w : World) :
  JS.truthy_item (localStorage w !! "token") = false ∨ sid = 0 →
  run (ChatScreen.fetchMessages sid) o w = (w, Resolved tt).
Proof.
  intros Hguard. unfold ChatScreen.fetchMessages. cbn.
  destruct Hguard as [-> | ->]; [done|]. by rewrite orb_true_r.
Qed.

Lemma fetchMessages_guard_witness :
  run (ChatScreen.fetchMessages 0) Spec.offline Spec.one_session
  = (Spec.one_session, Resolved tt).
Proof.
  apply (fetchMessages_guard 0 Spec.offline Spec.one_session). by right.
Defined.

(** X3: when the history request is answered 2xx, the transcript
    becomes the flattening of the fetched pairs whatever it held
    before (nothing is merged); the store and the rest of the
    controller's state are untouched and the request is the only
    effect. *)
Theorem fetchMessages_success
    (o : Oracle) (w : World) (tok : string) (sid : Z)
    (data : list Exchange) (bt : option string) :
  localStorage w !! "token" = Some tok →
  tok ≠ "" →
  sid ≠ 0 →
  o (GET_messages (Some tok) sid)
    = Response {| ok := true; json := Some data; body_text := bt |} →
  run (ChatScreen.fetchMessages sid) o w
  = (record (EvFetch (GET_messages (Some tok) sid))
       (with_messages (λ _, ChatScreen.flatten data) w),
     Resolved tt).
Proof.
  intros Htok Hne Hsid Ho. unfold ChatScreen.fetchMessages. cbn.
  rewrite Htok, (truthy_item_Some _ Hne).
  replace (JS.truthy_number (Some sid)) with true
    by (unfold JS.truthy_number; by destruct (Z.eqb_spec sid 0)).
  cbn. by rewrite Ho.
Qed.

Lemma fetchMessages_success_witness :
  run (ChatScreen.fetchMessages 1)
    (Spec.serve {| Spec.on_list := NetworkError; Spec.on_create := NetworkError;
                   Spec.on_history := Spec.success [ {| message := "A"; response := Some "B" |} ];
                   Spec.on_send := NetworkError; Spec.on_clear := NetworkError |})
    Spec.one_session
  = (record (EvFetch (GET_messages (Some "t0k3n") 1))
       (with_messages
          (λ _, ChatScreen.flatten [ {| message := "A"; response := Some "B" |} ])
          Spec.one_session),
     Resolved tt).
Proof.
  apply (fetchMessages_success _ Spec.one_session "t0k3n" 1
           [ {| message := "A"; response := Some "B" |} ] None).
  - reflexivity.
  - discriminate.
  - lia.
  - reflexivity.
Defined.

(** X4: when the history request fails (transport rejection or a
    non-2xx status), the previous transcript stays as it is, and so do
    the store and the session identifier; a non-2xx answer is
    swallowed, a transport rejection rejects the call. *)
Theorem fetchMessages_failure_keeps_transcript (sid : Z) (o : Oracle) (w : World) :
  JS.truthy_item (localStorage w !! "token") = true →
  sid ≠ 0 →
  Spec.failed (o (GET_messages (localStorage w !! "token") sid)) →
  ∃ out,
    run (ChatScreen.fetchMessages sid) o w
    = (record (EvFetch (GET_messages (localStorage w !! "token") sid)) w, out)
    ∧ match o (GET_messages (localStorage w !! "token") sid) with
      | NetworkError => out = Rejected
      | Response _ => out = Resolved tt
      end.
Proof.
  intros Htok Hsid Hfail. unfold ChatScreen.fetchMessages. cbn.
  rewrite Htok.
  replace (JS.truthy_number (Some sid)) with true
    by (unfold JS.truthy_number; by destruct (Z.eqb_spec sid 0)).
  cbn.
  destruct (o (GET_messages (localStorage w !! "token") sid)) as [|[okr js bt]];
    cbn in *; [by eexists|].
  rewrite Hfail. cbn. by eexists.
Qed.

Lemma fetchMessages_failure_witness :
  ∃ out,
    run (ChatScreen.fetchMessages 1) Spec.offline Spec.one_session
    = (record (EvFetch (GET_messages (localStorage Spec.one_session !! "token") 1))
         Spec.one_session, out)
    ∧ out = Rejected.
Proof.
  exact (fetchMessages_failure_keeps_transcript 1 Spec.offline Spec.one_session
           eq_refl ltac:(lia) I).
Defined.

(** ** Creating a session *)

Lemma truthy_number_nonzero (n : Z) : n ≠ 0 → JS.truthy_number (Some n) = true.
Proof. intros Hn. unfold JS.truthy_number. by destruct (Z.eqb_spec n 0). Qed.

(** The world a successful [handleNewChat] leaves. *)
Lemma handleNewChat_created
    (firstMessage : option string) (o : Oracle) (w : World) (newId : Z)
    (bt : option string) :
  let r := POST_sessions (localStorage w !! "token")
             (if JS.truthy_item firstMessage then firstMessage else None) in
  o r = Response {| ok := true; json := Some newId; body_text := bt |} →
  run (ChatScreen.handleNewChat firstMessage) o w
  = (record (EvDispatch "sessionsUpdated" None)
       (with_messages (λ _, [])
          (record (EvSetItem "activeSession" (JS.String_of newId))
             (with_localStorage (insert "activeSession" (JS.String_of newId))
                (with_sessionId (Some newId) (record (EvFetch r) w))))),
     Resolved tt).
Proof.
  intros r Ho. unfold ChatScreen.handleNewChat. cbn. fold r. by rewrite Ho.
Qed.

(** X5: when the creation request of [handleNewChat] is answered 2xx
    with an identifier, that identifier becomes the controller's
    session and is written to the store, the transcript is emptied, and
    one [sessionsUpdated] notification is published after the write. A
    first message that is omitted or empty is left out of the request. *)
Theorem handleNewChat_success
    (firstMessage : option string) (o : Oracle) (w : World) (newId : Z)
    (bt : option string) :
  let body := if JS.truthy_item firstMessage then firstMessage else None in
  o (POST_sessions (localStorage w !! "token") body)
    = Response {| ok := true; json := Some newId; body_text := bt |} →
  ∃ w', run (ChatScreen.handleNewChat firstMessage) o w = (w', Resolved tt)
    ∧ sessionId w' = Some newId
    ∧ messages w' = []
    ∧ localStorage w' = <["activeSession" := JS.String_of newId]> (localStorage w)
    ∧ Spec.events_since w w'
      = [ EvFetch (POST_sessions (localStorage w !! "token") body);
          EvSetItem "activeSession" (JS.String_of newId);
          EvDispatch "sessionsUpdated" None ].
Proof.
  intros body Ho. unfold ChatScreen.handleNewChat. cbn.
  fold body. rewrite Ho. cbn.
  eexists. split; [reflexivity|]. cbn. repeat split.
  by since.
Qed.

Lemma handleNewChat_success_witness :
  ∃ w', run (ChatScreen.handleNewChat (Some ""))
          (Spec.answering (Spec.success 5) NetworkError) Spec.one_session
        = (w', Resolved tt)
    ∧ sessionId w' = Some 5
    ∧ messages w' = []
    ∧ localStorage w'
      = <["activeSession" := JS.String_of 5]> (localStorage Spec.one_session)
    ∧ Spec.events_since Spec.one_session w'
      = [ EvFetch (POST_sessions (localStorage Spec.one_session !! "token") None);
          EvSetItem "activeSession" (JS.String_of 5);
          EvDispatch "sessionsUpdated" None ].
Proof.
  exact (handleNewChat_success (Some "") (Spec.answering (Spec.success 5) NetworkError)
           Spec.one_session 5 None eq_refl).
Defined.

(** X6: when the creation request of [handleNewChat] fails, the
    controller keeps its session, its transcript and the store: the
    request is the only effect and nothing is published.  A non-2xx
    answer is swallowed; a transport rejection rejects the call. *)
Theorem handleNewChat_failure_changes_nothing
    (firstMessage : option string) (o : Oracle) (w : World) :
  let r := POST_sessions (localStorage w !! "token")
             (if JS.truthy_item firstMessage then firstMessage else None) in
  Spec.failed (o r) →
  ∃ out,
    run (ChatScreen.handleNewChat firstMessage) o w = (record (EvFetch r) w, out)
    ∧ match o r with
      | NetworkError => out = Rejected
      | Response _ => out = Resolved tt
      end.
Proof.
  intros r Hfail. unfold ChatScreen.handleNewChat. cbn. fold r.
  destruct (o r) as [|[okr js bt]]; cbn in *; [by eexists|].
  rewrite Hfail. cbn. by eexists.
Qed.

Lemma handleNewChat_failure_witness :
  ∃ out,
    run (ChatScreen.handleNewChat None) (Spec.answering Spec.refused NetworkError)
      Spec.one_session
    = (record (EvFetch (POST_sessions (localStorage Spec.one_session !! "token") None))
         Spec.one_session, out)
    ∧ out = Resolved tt.
Proof.
  exact (handleNewChat_failure_changes_nothing None
           (Spec.answering Spec.refused NetworkError) Spec.one_session eq_refl).
Defined.

(** ** Sending with an active session *)

(** X7: with an active session and a non-blank text, whatever the
    backend does, [handleSend] returns normally with the busy flag
    cleared and the input emptied; it issues the send request and no
    other, leaves the store and the session alone, and appends the user
    entry followed by exactly one assistant entry: the answer after a
    2xx response with a parsable body (then, and only then,
    [sessionsUpdated] is published), the status apology after a non-2xx
    response whose body can be read, and the connection apology in
    every other case (transport rejection, unreadable body, 2xx without
    parsable body). *)
Theorem handleSend_with_session
    (msg : string) (o : Oracle) (w : World) (sid : Z) :
  JS.blank msg = false →
  sessionId w = Some sid →
  sid ≠ 0 →
  let r := POST_message (localStorage w !! "token") sid msg in
  ∃ w' reply published,
    run (ChatScreen.handleSend msg) o w = (w', Resolved tt)
    ∧ messages w' = (messages w ++ [ {| role := user; text := JS.trim msg |};
                                     {| role := bot; text := reply |} ])%list
    ∧ isLoading w' = false
    ∧ input w' = ""
    ∧ sessionId w' = Some sid
    ∧ localStorage w' = localStorage w
    ∧ Spec.events_since w w'
      = EvFetch r :: (if published : bool then [EvDispatch "sessionsUpdated" None] else [])
    ∧ match o r with
      | NetworkError => reply = ChatScreen.apology_network ∧ published = false
      | Response res =>
          if ok res then
            match json res with
            | Some answer => reply = answer ∧ published = true
            | None => reply = ChatScreen.apology_network ∧ published = false
            end
          else
            match body_text res with
            | Some _ => reply = ChatScreen.apology_status ∧ published = false
            | None => reply = ChatScreen.apology_network ∧ published = false
            end
      end.
Proof.
  intros Hnb Hsid Hnz r. unfold ChatScreen.handleSend. cbn.
  rewrite (trim_truthy _ Hnb), Hsid, (truthy_number_nonzero _ Hnz). cbn.
  unfold ChatScreen.send_to. cbn. fold r.
  destruct (o r) as [|[[] [answer|] [body|]]]; cbn;
    eexists _, _, _; (split; [reflexivity|]); cbn;
    rewrite <- ?app_assoc; cbn;
    (repeat split; try done);
    try (erewrite events_since_app; [|cbn; rewrite <- ?app_assoc; reflexivity]);
    try instantiate (1 := true); try instantiate (1 := false); try reflexivity.
Qed.

Lemma handleSend_with_session_witness :
  ∃ w' reply published,
    run (ChatScreen.handleSend " fees? ")
      (Spec.answering NetworkError (Spec.success "About 9000 pounds."))
      Spec.one_session = (w', Resolved tt)
    ∧ messages w' = (messages Spec.one_session
                       ++ [ {| role := user; text := JS.trim " fees? " |};
                            {| role := bot; text := reply |} ])%list
    ∧ isLoading w' = false
    ∧ input w' = ""
    ∧ sessionId w' = Some 1
    ∧ localStorage w' = localStorage Spec.one_session
    ∧ Spec.events_since Spec.one_session w'
      = EvFetch (POST_message (localStorage Spec.one_session !! "token") 1 " fees? ")
        :: (if published : bool then [EvDispatch "sessionsUpdated" None] else [])
    ∧ reply = "About 9000 pounds." ∧ published = true.
Proof.
  exact (handleSend_with_session " fees? "
           (Spec.answering NetworkError (Spec.success "About 9000 pounds."))
           Spec.one_session 1 eq_refl eq_refl ltac:(lia)).
Defined.

(** X8: the user entry is shown before the network answers: when
    [handleSend] is called with an active session and a non-blank text,
    at the moment it is suspended on the send request the transcript
    already ends with the user entry, the busy flag is set and the
    input is empty. *)
Theorem handleSend_optimistic_entry (msg : string) (w : World) (sid : Z) :
  JS.blank msg = false →
  sessionId w = Some sid →
  sid ≠ 0 →
  ∃ w1 k,
    start (ChatScreen.handleSend msg) w
    = (w1, Waiting (POST_message (localStorage w !! "token") sid msg) k)
    ∧ messages w1 = (messages w ++ [ {| role := user; text := JS.trim msg |} ])%list
    ∧ isLoading w1 = true
    ∧ input w1 = ""
    ∧ log w1 = (log w ++ [ EvFetch (POST_message (localStorage w !! "token") sid msg) ])%list.
Proof.
  intros Hnb Hsid Hnz. unfold ChatScreen.handleSend, ChatScreen.send_to. cbn.
  rewrite (trim_truthy _ Hnb), Hsid, (truthy_number_nonzero _ Hnz). cbn.
  eexists _, _. split; [reflexivity|]. done.
Qed.

Lemma handleSend_optimistic_entry_witness :
  ∃ w1 k,
    start (ChatScreen.handleSend "fees?") Spec.one_session
    = (w1, Waiting (POST_message (localStorage Spec.one_session !! "token") 1 "fees?") k)
    ∧ messages w1 = (messages Spec.one_session
                       ++ [ {| role := user; text := JS.trim "fees?" |} ])%list
    ∧ isLoading w1 = true
    ∧ input w1 = ""
    ∧ log w1 = (log Spec.one_session
                  ++ [ EvFetch (POST_message (localStorage Spec.one_session !! "token")
                                  1 "fees?") ])%list.
Proof.
  exact (handleSend_optimistic_entry "fees?" Spec.one_session 1
           eq_refl eq_refl ltac:(lia)).
Defined.

(** X9: a session identifier that is null or 0 counts as no session:
    [handleSend] with a non-blank text then first asks for a new
    session, seeded with the text as given, and while that request is
    outstanding the busy flag is set but the transcript has not yet
    received the user entry. *)
Theorem handleSend_creation_first (msg : string) (w : World) :
  JS.blank msg = false →
  sessionId w = None ∨ sessionId w = Some 0 →
  ∃ w1 k,
    start (ChatScreen.handleSend msg) w
    = (w1, Waiting (POST_sessions (localStorage w !! "token") (Some msg)) k)
    ∧ messages w1 = messages w
    ∧ isLoading w1 = true
    ∧ log w1 = (log w ++ [ EvFetch (POST_sessions (localStorage w !! "token") (Some msg)) ])%list.
Proof.
  intros Hnb Hnone. unfold ChatScreen.handleSend. cbn.
  rewrite (trim_truthy _ Hnb).
  assert (JS.truthy_number (sessionId w) = false) as ->
    by (by destruct Hnone as [-> | ->]).
  cbn. eexists _, _. split; [reflexivity|]. done.
Qed.

Lemma handleSend_creation_first_witness :
  ∃ w1 k,
    start (ChatScreen.handleSend "hello") (with_sessionId (Some 0) Spec.fresh)
    = (w1, Waiting (POST_sessions
                      (localStorage (with_sessionId (Some 0) Spec.fresh) !! "token")
                      (Some "hello")) k)
    ∧ messages w1 = messages (with_sessionId (Some 0) Spec.fresh)
    ∧ isLoading w1 = true
    ∧ log w1 = (log (with_sessionId (Some 0) Spec.fresh)
                  ++ [ EvFetch (POST_sessions
                                  (localStorage (with_sessionId (Some 0) Spec.fresh) !! "token")
                                  (Some "hello")) ])%list.
Proof.
  apply (handleSend_creation_first "hello" (with_sessionId (Some 0) Spec.fresh)).
  - reflexivity.
  - by right.
Defined.

(** ** New chat, then send; clear all, then recover *)

(** X10: after a new chat has been created with a non-zero identifier,
    the next non-blank send goes to that session without creating
    another one: its only request is the send addressed to the new
    identifier, and the transcript, emptied by the new chat, holds
    exactly the user entry and one assistant entry. *)
Theorem new_chat_then_send
    (firstMessage : option string) (msg : string) (o o' : Oracle) (w : World)
    (newId : Z) (bt : option string) :
  o (POST_sessions (localStorage w !! "token")
       (if JS.truthy_item firstMessage then firstMessage else None))
    = Response {| ok := true; json := Some newId; body_text := bt |} →
  newId ≠ 0 →
  JS.blank msg = false →
  let w1 := (run (ChatScreen.handleNewChat firstMessage) o w).1 in
  ∃ w2 reply,
    run (ChatScreen.handleSend msg) o' w1 = (w2, Resolved tt)
    ∧ requests (Spec.events_since w1 w2)
      = [ POST_message (localStorage w !! "token") newId msg ]
    ∧ messages w2 = [ {| role := user; text := JS.trim msg |};
                      {| role := bot; text := reply |} ]
    ∧ sessionId w2 = Some newId.
Proof.
  intros Ho Hnz Hnb w1. unfold w1.
  rewrite (handleNewChat_created firstMessage o w newId bt Ho). cbn [fst].
  unfold ChatScreen.handleSend. cbn -[Spec.events_since].
  rewrite (trim_truthy _ Hnb), (truthy_number_nonzero _ Hnz). cbn -[Spec.events_since].
  match goal with |- context [run (ChatScreen.send_to msg newId) o' ?w0] =>
    destruct (send_to_runs msg o' newId w0)
      as (w2 & reply & evs & Hrun & Hmsgs & _ & _ & Hsid & _ & Hlog & Hevs)
  end.
  cbn in Hmsgs, Hsid, Hlog, Hevs. rewrite lookup_insert_ne in Hevs by done.
  exists w2, reply. split; [exact Hrun|].
  repeat split; [|done|done].
  erewrite events_since_app; [|exact Hlog].
  by destruct Hevs as [-> | ->].
Qed.

Lemma new_chat_then_send_witness :
  ∃ w2 reply,
    run (ChatScreen.handleSend "hello") Spec.offline
      (run (ChatScreen.handleNewChat None)
         (Spec.answering (Spec.success 5) NetworkError) Spec.one_session).1
    = (w2, Resolved tt)
    ∧ requests (Spec.events_since
                  (run (ChatScreen.handleNewChat None)
                     (Spec.answering (Spec.success 5) NetworkError) Spec.one_session).1 w2)
      = [ POST_message (localStorage Spec.one_session !! "token") 5 "hello" ]
    ∧ messages w2 = [ {| role := user; text := JS.trim "hello" |};
                      {| role := bot; text := reply |} ]
    ∧ sessionId w2 = Some 5.
Proof.
  exact (new_chat_then_send None "hello" (Spec.answering (Spec.success 5) NetworkError)
           Spec.offline Spec.one_session 5 None eq_refl ltac:(lia) eq_refl).
Defined.

(** X11: the [createNewChat] listener empties the transcript and
    forgets the session at once, then asks for an unseeded session; the
    controller has a session again, written to the store, only if that
    request is answered 2xx with an identifier; in every other case it
    is left without session, with an empty transcript and an untouched
    store. *)
Theorem handleCreateNewChat_outcome (o : Oracle) (w : World) :
  let r := POST_sessions (localStorage w !! "token") None in
  ∃ w' out,
    run ChatScreen.handleCreateNewChat o w = (w', out)
    ∧ messages w' = []
    ∧ requests (Spec.events_since w w') = [r]
    ∧ match o r with
      | Response {| ok := true; json := Some newId |} =>
          sessionId w' = Some newId
          ∧ localStorage w' = <["activeSession" := JS.String_of newId]> (localStorage w)
      | _ => sessionId w' = None ∧ localStorage w' = localStorage w
      end.
Proof.
  intros r. unfold ChatScreen.handleCreateNewChat, ChatScreen.handleNewChat.
  change (if JS.truthy_item (@None string) then None else None) with (@None string).
  cbn -[Spec.events_since]. fold r.
  destruct (o r) as [|[[] [newId|] bt]]; cbn -[Spec.events_since];
    eexists _, _; (split; [reflexivity|]); cbn -[Spec.events_since];
    (repeat split; try done);
    (erewrite events_since_app; [|cbn; rewrite <- ?app_assoc; reflexivity]); done.
Qed.



(** ** The input bar *)

Section TrimTwice.

Lemma trimEnd_idempotent (s : string) : JS.trimEnd (JS.trimEnd s) = JS.trimEnd s.
Proof.
  induction s as [|c s IH]; [done|]. cbn [JS.trimEnd].
  destruct (JS.isWhiteSpace c && JS.isEmpty (JS.trimEnd s)) eqn:Hc; [done|].
  cbn [JS.trimEnd]. by rewrite IH, Hc.
Qed.

Lemma trimStart_fixed (s : string) :
  JS.trimStart (JS.trimStart s) = JS.trimStart s.
Proof.
  induction s as [|c s IH]; [done|]. cbn [JS.trimStart].
  destruct (JS.isWhiteSpace c) eqn:Hc; [done|]. cbn [JS.trimStart]. by rewrite Hc.
Qed.

Lemma trimStart_trimEnd (s : string) :
  JS.trimStart s = s → JS.trimStart (JS.trimEnd s) = JS.trimEnd s.
Proof.
  destruct s as [|c s]; [done|]. cbn [JS.trimStart JS.trimEnd].
  destruct (JS.isWhiteSpace c) eqn:Hc.
  - intros Hs. exfalso.
    assert (String.length (JS.trimStart s) ≤ String.length s)%nat as Hlen.
    { clear. induction s as [|a s IH]; [done|]. cbn [JS.trimStart].
      destruct (JS.isWhiteSpace a); simpl; lia. }
    rewrite Hs in Hlen. simpl in Hlen. lia.
  - intros _. cbn [andb JS.trimStart]. by rewrite Hc.
Qed.

(** Trimming a trimmed text changes nothing. *)
Lemma trim_idempotent (s : string) : JS.trim (JS.trim s) = JS.trim s.
Proof.
  unfold JS.trim.
  rewrite (trimStart_trimEnd _ (trimStart_fixed s)). apply trimEnd_idempotent.
Qed.

End TrimTwice.

(** X13: a click on the send button (or the Enter key) does something
    exactly when the button is enabled: [ChatInputBar.handleSend]
    returns at once with the world unchanged if and only if the input
    is blank or the busy flag is set. *)
Theorem input_bar_acts_iff_enabled (w : World) :
  ChatInputBar.send_disabled w = true
  ↔ start ChatInputBar.handleSend w = (w, Settled (Resolved tt)).
Proof.
  unfold ChatInputBar.send_disabled, ChatInputBar.handleSend. cbn.
  destruct (JS.truthy_string (JS.trim (input w))) eqn:Htrim; cbn; [|done].
  destruct (isLoading w) eqn:Hbusy; cbn; [done|].
  split; [done|]. unfold ChatScreen.handleSend. cbn.
  rewrite trim_idempotent, Htrim. cbn.
  destruct (JS.truthy_number (sessionId w)); cbn; [|done].
  unfold ChatScreen.send_to. cbn. done.
Qed.

Lemma input_bar_acts_iff_enabled_witness :
  start ChatInputBar.handleSend (with_input "   " Spec.one_session)
  = (with_input "   " Spec.one_session, Settled (Resolved tt)).
Proof.
  apply (input_bar_acts_iff_enabled (with_input "   " Spec.one_session)). reflexivity.
Defined.

(** X14: with an enabled button and an active session, the input bar
    sends the trimmed input: the send request carries it, the user
    entry shows it, and when the handler is suspended on the request
    the input is empty, the suggestions are hidden and the busy flag is
    set. *)
Theorem input_bar_sends_trimmed_input (w : World) (sid : Z) :
  ChatInputBar.send_disabled w = false →
  sessionId w = Some sid →
  sid ≠ 0 →
  ∃ w1 k,
    start ChatInputBar.handleSend w
    = (w1, Waiting (POST_message (localStorage w !! "token") sid (JS.trim (input w))) k)
    ∧ messages w1 = (messages w ++ [ {| role := user; text := JS.trim (input w) |} ])%list
    ∧ input w1 = ""
    ∧ showSuggestions w1 = false
    ∧ isLoading w1 = true.
Proof.
  unfold ChatInputBar.send_disabled. intros Hen Hsid Hnz.
  apply orb_false_elim in Hen as [Htrim Hbusy]. apply negb_false_iff in Htrim.
  unfold ChatInputBar.handleSend. cbn. rewrite Htrim, Hbusy. cbn.
  unfold ChatScreen.handleSend. cbn.
  rewrite trim_idempotent, Htrim, Hsid, (truthy_number_nonzero _ Hnz). cbn.
  unfold ChatScreen.send_to. cbn.
  eexists _, _. split; [reflexivity|]. by rewrite trim_idempotent.
Qed.

Lemma input_bar_sends_trimmed_input_witness :
  ∃ w1 k,
    start ChatInputBar.handleSend (with_input " fees? " Spec.one_session)
    = (w1, Waiting (POST_message
                      (localStorage (with_input " fees? " Spec.one_session) !! "token") 1
                      (JS.trim (input (with_input " fees? " Spec.one_session)))) k)
    ∧ messages w1
      = (messages (with_input " fees? " Spec.one_session)
           ++ [ {| role := user;
                   text := JS.trim (input (with_input " fees? " Spec.one_session)) |} ])%list
    ∧ input w1 = ""
    ∧ showSuggestions w1 = false
    ∧ isLoading w1 = true.
Proof.
  exact (input_bar_sends_trimmed_input (with_input " fees? " Spec.one_session) 1
           eq_refl eq_refl ltac:(lia)).
Defined.

(** X15: while the busy flag is set the input bar is frozen: typing
    into the field, pressing Enter or any key other than Escape, and
    clicking send all leave the world unchanged and send nothing. *)
Theorem input_bar_frozen_while_busy (w : World) (o : Oracle) (value key : string) :
  isLoading w = true →
  key ≠ "Escape" →
  run (ChatInputBar.onChange value) o w = (w, Resolved tt)
  ∧ run (ChatInputBar.handleKeyDown key) o w = (w, Resolved tt)
  ∧ run ChatInputBar.handleSend o w = (w, Resolved tt).
Proof.
  intros Hbusy Hkey.
  unfold ChatInputBar.onChange, ChatInputBar.handleKeyDown, ChatInputBar.handleSend.
  cbn. rewrite Hbusy, !andb_false_r. cbn.
  destruct (String.eqb_spec key "Escape"); done.
Qed.

Lemma input_bar_frozen_while_busy_witness :
  run (ChatInputBar.onChange "x") Spec.offline (with_isLoading true Spec.one_session)
  = (with_isLoading true Spec.one_session, Resolved tt)
  ∧ run (ChatInputBar.handleKeyDown "Enter") Spec.offline
      (with_isLoading true Spec.one_session)
    = (with_isLoading true Spec.one_session, Resolved tt)
  ∧ run ChatInputBar.handleSend Spec.offline (with_isLoading true Spec.one_session)
    = (with_isLoading true Spec.one_session, Resolved tt).
Proof.
  apply (input_bar_frozen_while_busy (with_isLoading true Spec.one_session)
           Spec.offline "x" "Enter").
  - reflexivity.
  - discriminate.
Defined.

(** The Enter key and the send button are the same action in
    every state: [handleKeyDown("Enter")] and [handleSend] leave the
    same world, with the same outcome, under every backend. *)
Theorem enter_key_is_send_button (w : World) (o : Oracle) :
  run (ChatInputBar.handleKeyDown "Enter") o w = run ChatInputBar.handleSend o w
  ∧ start (ChatInputBar.handleKeyDown "Enter") w = start ChatInputBar.handleSend w.
Proof.
  unfold ChatInputBar.handleKeyDown, ChatInputBar.handleSend. cbn.
  destruct (isLoading w) eqn:Hbusy; cbn; rewrite ?Hbusy, ?andb_false_r; done.
Qed.

(** ** The filtered view of the Directory *)

Section Search.

Lemma lower_idempotent (c : ascii) : JS.lower (JS.lower c) = JS.lower c.
Proof. by destruct c as [[] [] [] [] [] [] [] []]. Qed.

Lemma toLowerCase_idempotent (s : string) :
  JS.toLowerCase (JS.toLowerCase s) = JS.toLowerCase s.
Proof.
  induction s as [|c s IH]; [done|]. simpl. by rewrite lower_idempotent, IH.
Qed.

Lemma toLowerCase_truthy (s : string) :
  JS.truthy_string (JS.toLowerCase s) = JS.truthy_string s.
Proof. by destruct s. Qed.

Lemma startsWith_refl (s : string) : JS.startsWith s s = true.
Proof.
  induction s as [|c s IH]; [done|]. simpl. by rewrite Ascii.eqb_refl, IH.
Qed.

Lemma includes_refl (s : string) : JS.includes s s = true.
Proof. destruct s; simpl; [done|]. by rewrite Ascii.eqb_refl, startsWith_refl. Qed.

Lemma filter_twice {A : Type} (f : A → bool) (l : list A) :
  List.filter f (List.filter f l) = List.filter f l.
Proof.
  induction l as [|x l IH]; [done|]. simpl.
  destruct (f x) eqn:Hx; [|done]. simpl. by rewrite Hx, IH.
Qed.

Lemma filter_sublist {A : Type} (f : A → bool) (l : list A) :
  sublist (List.filter f l) l.
Proof.
  induction l as [|x l IH]; [constructor|]. simpl.
  destruct (f x); by constructor.
Qed.

Lemma truthy_string_eq (s1 s2 : string) :
  JS.toLowerCase s1 = JS.toLowerCase s2 → JS.truthy_string s1 = JS.truthy_string s2.
Proof. intros H. by rewrite <- (toLowerCase_truthy s1), H, toLowerCase_truthy. Qed.

End Search.

(** X16: the search is case-insensitive in the search text: two search
    texts with the same lower-case form show the same sessions. *)
Theorem filtered_ignores_case_of_search (q1 q2 : string) (l : list ChatSession) :
  JS.toLowerCase q1 = JS.toLowerCase q2 →
  SidebarConversationList.filtered q1 l = SidebarConversationList.filtered q2 l.
Proof.
  intros Hq. unfold SidebarConversationList.filtered.
  by rewrite (truthy_string_eq _ _ Hq), Hq.
Qed.

Lemma filtered_ignores_case_witness :
  SidebarConversationList.filtered "VISA"
    [ {| id := 1; name := "Visa rules" |}; {| id := 2; name := "Fees" |} ]
  = SidebarConversationList.filtered "visa"
      [ {| id := 1; name := "Visa rules" |}; {| id := 2; name := "Fees" |} ].
Proof.
  apply (filtered_ignores_case_of_search "VISA" "visa"). reflexivity.
Defined.

(** X17: a listed session is always found by searching for its own
    name, in any letter case. *)
Theorem filtered_finds_own_name (q : string) (s : ChatSession) (l : list ChatSession) :
  s ∈ l →
  JS.toLowerCase q = JS.toLowerCase (name s) →
  s ∈ SidebarConversationList.filtered q l.
Proof.
  intros Hin Hq. unfold SidebarConversationList.filtered.
  destruct (JS.truthy_string q); [|done].
  apply list_elem_of_In, filter_In. split; [by apply list_elem_of_In|].
  rewrite Hq. apply includes_refl.
Qed.

Lemma filtered_finds_own_name_witness :
  {| id := 2; name := "Fees" |}
  ∈ SidebarConversationList.filtered "FEES"
      [ {| id := 1; name := "Visa rules" |}; {| id := 2; name := "Fees" |} ].
Proof.
  apply (filtered_finds_own_name "FEES" {| id := 2; name := "Fees" |}).
  - apply elem_of_cons. right. apply elem_of_cons. by left.
  - reflexivity.
Defined.

(** The filtered view is a subsequence of the snapshot, in the
    snapshot's order, and searching again within the result with the
    same text removes nothing. *)
Theorem filtered_narrows_once (q : string) (l : list ChatSession) :
  sublist (SidebarConversationList.filtered q l) l
  ∧ SidebarConversationList.filtered q (SidebarConversationList.filtered q l)
    = SidebarConversationList.filtered q l.
Proof.
  unfold SidebarConversationList.filtered.
  destruct (JS.truthy_string q); [|done].
  split; [apply filter_sublist|apply filter_twice].
Qed.

(** ** The Directory after a fetch *)

Section Fetched.

Lemma find_active_found (act : option Z) (data : list ChatSession) (s : ChatSession) :
  SidebarConversationList.find_active act data = Some s →
  act = Some (id s) ∧ s ∈ data.
Proof.
  unfold SidebarConversationList.find_active. intros Hfind.
  apply find_some in Hfind as [Hin Heq].
  destruct act as [a|]; [|done].
  apply Z.eqb_eq in Heq as <-. split; [done|]. by apply list_elem_of_In.
Qed.

Lemma find_active_present (a : Z) (data : list ChatSession) :
  a ∈ View.ids data →
  JS.truthy_object (SidebarConversationList.find_active (Some a) data) = true.
Proof.
  unfold View.ids, SidebarConversationList.find_active. intros Hin.
  apply list_elem_of_fmap in Hin as (s & -> & Hs).
  destruct (List.find (λ s0, id s0 =? id s) data) eqn:Hfind; [done|].
  apply list_elem_of_In in Hs.
  pose proof (find_none _ _ Hfind s Hs) as Hne. cbn in Hne.
  by rewrite Z.eqb_refl in Hne.
Qed.

Lemma ids_elem (s : ChatSession) (l : list ChatSession) :
  s ∈ l → id s ∈ View.ids l.
Proof.
  intros Hs. apply list_elem_of_In, (in_map id). by apply list_elem_of_In.
Qed.

End Fetched.

(** X18: after every successful fetch of a non-empty session list, the
    Directory's active identifier is the identifier of one of the
    fetched sessions. *)
Theorem fetchSessions_active_is_listed
    (o : Oracle) (w : World) (tok : string) (bt : option string)
    (first : ChatSession) (rest : list ChatSession) :
  localStorage w !! "token" = Some tok →
  tok ≠ "" →
  o (GET_sessions (Some tok))
    = Response {| ok := true; json := Some (first :: rest); body_text := bt |} →
  ∃ a, activeId (run SidebarConversationList.fetchSessions o w).1 = Some a
       ∧ a ∈ View.ids (first :: rest).
Proof.
  intros Htok Hne Ho. unfold SidebarConversationList.fetchSessions. cbn.
  rewrite Htok, (truthy_item_Some _ Hne). cbn. rewrite Ho. cbn.
  destruct (negb (JS.truthy_number (activeId w))
            || negb (JS.truthy_object
                       (SidebarConversationList.find_active (activeId w) (first :: rest))))
    eqn:Hsel; cbn.
  - exists (id first). split; [done|]. apply elem_of_cons. by left.
  - apply orb_false_elim in Hsel as [_ Hfound]. apply negb_false_iff in Hfound.
    destruct (SidebarConversationList.find_active (activeId w) (first :: rest))
      as [s|] eqn:Hfind; [|done].
    apply find_active_found in Hfind as [-> Hs].
    exists (id s). split; [done|]. exact (ids_elem s (first :: rest) Hs).
Qed.

Lemma fetchSessions_active_is_listed_witness :
  ∃ a, activeId (run SidebarConversationList.fetchSessions
                   (Spec.serve {| Spec.on_list := Spec.success [ {| id := 4; name := "Visa" |};
                                                                 {| id := 9; name := "Fees" |} ];
                                  Spec.on_create := NetworkError;
                                  Spec.on_history := NetworkError;
                                  Spec.on_send := NetworkError;
                                  Spec.on_clear := NetworkError |})
                   Spec.one_session).1 = Some a
       ∧ a ∈ View.ids [ {| id := 4; name := "Visa" |}; {| id := 9; name := "Fees" |} ].
Proof.
  apply (fetchSessions_active_is_listed _ Spec.one_session "t0k3n" None
           {| id := 4; name := "Visa" |} [ {| id := 9; name := "Fees" |} ]).
  - reflexivity.
  - discriminate.
  - reflexivity.
Defined.

(** X19: when the Directory's active identifier is non-zero and still
    among the fetched sessions, a successful fetch only replaces the
    snapshot: the active identifier stays, nothing is written to the
    store and nothing is published. *)
Theorem fetchSessions_keeps_listed_active
    (o : Oracle) (w : World) (tok : string) (bt : option string)
    (data : list ChatSession) (a : Z) :
  localStorage w !! "token" = Some tok →
  tok ≠ "" →
  o (GET_sessions (Some tok))
    = Response {| ok := true; json := Some data; body_text := bt |} →
  activeId w = Some a →
  a ≠ 0 →
  a ∈ View.ids data →
  run SidebarConversationList.fetchSessions o w
  = (record (EvFetch (GET_sessions (Some tok))) (with_sessions data w), Resolved tt).
Proof.
  intros Htok Hne Ho Hact Hnz Hin. unfold SidebarConversationList.fetchSessions. cbn.
  rewrite Htok, (truthy_item_Some _ Hne). cbn. rewrite Ho. cbn.
  by rewrite Hact, (truthy_number_nonzero _ Hnz), (find_active_present _ _ Hin).
Qed.

Lemma fetchSessions_keeps_listed_active_witness :
  run SidebarConversationList.fetchSessions
    (Spec.serve {| Spec.on_list := Spec.success [ {| id := 4; name := "Visa" |};
                                                  {| id := 1; name := "Fees" |} ];
                   Spec.on_create := NetworkError; Spec.on_history := NetworkError;
                   Spec.on_send := NetworkError; Spec.on_clear := NetworkError |})
    Spec.one_session
  = (record (EvFetch (GET_sessions (Some "t0k3n")))
       (with_sessions [ {| id := 4; name := "Visa" |}; {| id := 1; name := "Fees" |} ]
          Spec.one_session),
     Resolved tt).
Proof.
  apply (fetchSessions_keeps_listed_active _ Spec.one_session "t0k3n" None
           [ {| id := 4; name := "Visa" |}; {| id := 1; name := "Fees" |} ] 1).
  - reflexivity.
  - discriminate.
  - reflexivity.
  - reflexivity.
  - lia.
  - apply elem_of_cons. right. apply elem_of_cons. by left.
Defined.

(** X20: fetching twice is as good as fetching once: when two fetches
    in a row get the same non-empty list, none of whose identifiers is
    0, the second one writes nothing, publishes nothing and leaves the
    active identifier, the snapshot and the store as the first one left
    them. *)
Theorem fetchSessions_twice
    (o : Oracle) (w : World) (tok : string) (bt : option string)
    (first : ChatSession) (rest : list ChatSession) :
  localStorage w !! "token" = Some tok →
  tok ≠ "" →
  o (GET_sessions (Some tok))
    = Response {| ok := true; json := Some (first :: rest); body_text := bt |} →
  0 ∉ View.ids (first :: rest) →
  let w1 := (run SidebarConversationList.fetchSessions o w).1 in
  run SidebarConversationList.fetchSessions o w1
  = (record (EvFetch (GET_sessions (Some tok))) w1, Resolved tt).
Proof.
  intros Htok Hne Ho Hnz w1.
  assert (localStorage w1 !! "token" = Some tok ∧ sessions w1 = first :: rest
          ∧ ∃ a, activeId w1 = Some a ∧ a ∈ View.ids (first :: rest))
    as (Htok1 & Hsess & a & Hact & Hin).
  { unfold w1, SidebarConversationList.fetchSessions. cbn.
    rewrite Htok, (truthy_item_Some _ Hne). cbn. rewrite Ho. cbn.
    destruct (negb (JS.truthy_number (activeId w))
              || negb (JS.truthy_object
                         (SidebarConversationList.find_active (activeId w) (first :: rest))))
      eqn:Hsel; cbn.
    - split; [by rewrite lookup_insert_ne|]. split; [done|].
      exists (id first). split; [done|]. apply elem_of_cons. by left.
    - split; [done|]. split; [done|].
      apply orb_false_elim in Hsel as [_ Hfound]. apply negb_false_iff in Hfound.
      destruct (SidebarConversationList.find_active (activeId w) (first :: rest))
        as [s|] eqn:Hfind; [|done].
      apply find_active_found in Hfind as [-> Hs].
      exists (id s). split; [done|]. exact (ids_elem s (first :: rest) Hs). }
  assert (a ≠ 0) as Ha by (intros ->; done).
  unfold SidebarConversationList.fetchSessions. cbn.
  rewrite Htok1, (truthy_item_Some _ Hne). cbn. rewrite Ho. cbn.
  rewrite Hact, (truthy_number_nonzero _ Ha), (find_active_present _ _ Hin). cbn.
  f_equal. clear -Hsess. destruct w1; cbn in *. by subst.
Qed.

Lemma fetchSessions_twice_witness :
  let o := Spec.serve {| Spec.on_list := Spec.success [ {| id := 4; name := "Visa" |};
                                                        {| id := 9; name := "Fees" |} ];
                         Spec.on_create := NetworkError; Spec.on_history := NetworkError;
                         Spec.on_send := NetworkError; Spec.on_clear := NetworkError |} in
  let w1 := (run SidebarConversationList.fetchSessions o Spec.one_session).1 in
  run SidebarConversationList.fetchSessions o w1
  = (record (EvFetch (GET_sessions (Some "t0k3n"))) w1, Resolved tt).
Proof.
  intros o.
  apply (fetchSessions_twice o Spec.one_session "t0k3n" None
           {| id := 4; name := "Visa" |} [ {| id := 9; name := "Fees" |} ]).
  - reflexivity.
  - discriminate.
  - reflexivity.
  - intros Hin. apply list_elem_of_In in Hin. simpl in Hin.
    destruct Hin as [Hin|[Hin|[]]]; discriminate.
Defined.

(** X21: a directory fetch that is not made (no credential stored) or
    that fails (transport rejection or non-2xx status) keeps the
    previous snapshot, the active identifier and the store, and
    publishes nothing; without credential no request leaves at all. *)
Theorem fetchSessions_failure_keeps_snapshot (o : Oracle) (w : World) :
  JS.truthy_item (localStorage w !! "token") = false
  ∨ Spec.failed (o (GET_sessions (localStorage w !! "token"))) →
  let w' := (run SidebarConversationList.fetchSessions o w).1 in
  sessions w' = sessions w
  ∧ activeId w' = activeId w
  ∧ localStorage w' = localStorage w
  ∧ publications (Spec.events_since w w') = []
  ∧ (JS.truthy_item (localStorage w !! "token") = false → w' = w).
Proof.
  intros Hwhy w'. unfold w', SidebarConversationList.fetchSessions.
  cbn -[Spec.events_since].
  destruct (JS.truthy_item (localStorage w !! "token")) eqn:Htok;
    cbn -[Spec.events_since].
  - destruct Hwhy as [|Hfail]; [done|].
    destruct (o (GET_sessions (localStorage w !! "token"))) as [|[okr js bt]];
      cbn -[Spec.events_since] in *.
    + repeat split; try done. by since.
    + rewrite Hfail. cbn -[Spec.events_since]. repeat split; try done. by since.
  - repeat split; try done. by since.
Qed.

Lemma fetchSessions_failure_witness :
  let w' := (run SidebarConversationList.fetchSessions Spec.offline Spec.one_session).1 in
  sessions w' = sessions Spec.one_session
  ∧ activeId w' = activeId Spec.one_session
  ∧ localStorage w' = localStorage Spec.one_session
  ∧ publications (Spec.events_since Spec.one_session w') = []
  ∧ (JS.truthy_item (localStorage Spec.one_session !! "token") = false
     → w' = Spec.one_session).
Proof.
  apply (fetchSessions_failure_keeps_snapshot Spec.offline Spec.one_session).
  right. exact I.
Defined.

(** X22: when the fetched list is empty, the snapshot is emptied and
    nothing else happens: the Directory's active identifier and the
    stored one stay as they were, even though they no longer name a
    listed session, and nothing is published. *)
Theorem fetchSessions_empty_list
    (o : Oracle) (w : World) (tok : string) (bt : option string) :
  localStorage w !! "token" = Some tok →
  tok ≠ "" →
  o (GET_sessions (Some tok))
    = Response {| ok := true; json := Some []; body_text := bt |} →
  run SidebarConversationList.fetchSessions o w
  = (record (EvFetch (GET_sessions (Some tok))) (with_sessions [] w), Resolved tt).
Proof.
  intros Htok Hne Ho. unfold SidebarConversationList.fetchSessions. cbn.
  rewrite Htok, (truthy_item_Some _ Hne). cbn. rewrite Ho. cbn.
  by rewrite andb_false_r.
Qed.

Lemma fetchSessions_empty_list_witness :
  run SidebarConversationList.fetchSessions
    (Spec.serve {| Spec.on_list := Spec.success [];
                   Spec.on_create := NetworkError; Spec.on_history := NetworkError;
                   Spec.on_send := NetworkError; Spec.on_clear := NetworkError |})
    Spec.one_session
  = (record (EvFetch (GET_sessions (Some "t0k3n"))) (with_sessions [] Spec.one_session),
     Resolved tt).
Proof.
  apply (fetchSessions_empty_list _ Spec.one_session "t0k3n" None).
  - reflexivity.
  - discriminate.
  - reflexivity.
Defined.

(** ** Selecting and clearing *)

(** X23: selecting needs no backend and checks nothing against the
    snapshot; of two selections in a row the last one wins: the
    Directory's active identifier and the stored one are the second
    identifier, the snapshot is untouched, no request is made, and two
    [sessionChange] notifications were published, in the order of the
    selections. *)
Theorem handleSelect_last_wins (a b : Z) (o : Oracle) (w : World) :
  let w2 := (run (SidebarConversationList.handleSelect b) o
               (run (SidebarConversationList.handleSelect a) o w).1).1 in
  activeId w2 = Some b
  ∧ localStorage w2 = <["activeSession" := JS.String_of b]> (localStorage w)
  ∧ sessions w2 = sessions w
  ∧ requests (Spec.events_since w w2) = []
  ∧ publications (Spec.events_since w w2)
    = [ ("sessionChange", Some a); ("sessionChange", Some b) ].
Proof.
  intros w2. unfold w2, SidebarConversationList.handleSelect.
  cbn -[Spec.events_since].
  repeat split; try (since; done).
  apply insert_insert_eq.
Qed.

(** X24: when [clearAll] stops early, because no credential is stored
    or because the transport rejects the bulk delete, the [deleting]
    flag stays set and the confirmation stays as it was, while the
    snapshot, the active identifier and the store are untouched and
    nothing is published. *)
Theorem clearAll_stops_early (o : Oracle) (w : World) :
  JS.truthy_item (localStorage w !! "token") = false
  ∨ o (DELETE_sessions (localStorage w !! "token")) = NetworkError →
  let w' := (run SidebarConversationList.clearAll o w).1 in
  deleting w' = true
  ∧ showConfirm w' = showConfirm w
  ∧ sessions w' = sessions w
  ∧ activeId w' = activeId w
  ∧ localStorage w' = localStorage w
  ∧ publications (Spec.events_since w w') = [].
Proof.
  intros Hwhy w'. unfold w', SidebarConversationList.clearAll.
  cbn -[Spec.events_since].
  destruct (JS.truthy_item (localStorage w !! "token")) eqn:Htok;
    cbn -[Spec.events_since].
  - destruct Hwhy as [|Hrej]; [done|]. rewrite Hrej. cbn -[Spec.events_since].
    repeat split; try done. by since.
  - repeat split; try done. by since.
Qed.

Lemma clearAll_stops_early_witness :
  let w' := (run SidebarConversationList.clearAll Spec.offline Spec.one_session).1 in
  deleting w' = true
  ∧ showConfirm w' = showConfirm Spec.one_session
  ∧ sessions w' = sessions Spec.one_session
  ∧ activeId w' = activeId Spec.one_session
  ∧ localStorage w' = localStorage Spec.one_session
  ∧ publications (Spec.events_since Spec.one_session w') = [].
Proof.
  apply (clearAll_stops_early Spec.offline Spec.one_session). by right.
Defined.

(** ** Settings: avatar and logout *)

Lemma username_nonempty (store : gmap string string) :
  JS.truthy_string (SidebarSettings.username store) = true.
Proof.
  unfold SidebarSettings.username.
  destruct (store !! "username") as [s|]; [|done].
  by destruct (JS.truthy_string s) eqn:Hs.
Qed.

(** X25: the avatar always has a colour: for the name shown (the
    stored username, or "User" when it is missing or empty) the index
    computed from the first character is within the palette, so
    [getColor] never yields [undefined]. *)
Theorem avatar_color_defined (store : gmap string string) :
  ∃ c, SidebarSettings.getColor (SidebarSettings.username store) = Some c
       ∧ c ∈ SidebarSettings.colors.
Proof.
  pose proof (username_nonempty store) as Hne.
  unfold SidebarSettings.getColor.
  destruct (SidebarSettings.username store) as [|ch rest]; [done|].
  cbn [SidebarSettings.charCodeAt0].
  assert (nat_of_ascii ch mod length SidebarSettings.colors
          < length SidebarSettings.colors)%nat as Hlt
    by (apply Nat.mod_upper_bound; discriminate).
  apply lookup_lt_is_Some_2 in Hlt as [c Hc].
  exists c. split; [exact Hc|]. by eapply list_elem_of_lookup_2.
Qed.

(** X26: logging out removes the credential and the username from the
    store and nothing else: the stored active-session identifier
    survives; the page is sent to "/", the name shown falls back to
    "User", and a directory fetch in the world left behind sends
    nothing. *)
Theorem handleLogout_effect (o : Oracle) (w : World) :
  ∃ w', run SidebarSettings.handleLogout o w = (w', Resolved "/")
    ∧ localStorage w' = delete "username" (delete "token" (localStorage w))
    ∧ localStorage w' !! "token" = None
    ∧ localStorage w' !! "activeSession" = localStorage w !! "activeSession"
    ∧ SidebarSettings.username (localStorage w') = "User"
    ∧ requests (Spec.events_since w w') = []
    ∧ run SidebarConversationList.fetchSessions o w' = (w', Resolved tt).
Proof.
  unfold SidebarSettings.handleLogout. cbn -[Spec.events_since].
  eexists. split; [reflexivity|]. cbn -[Spec.events_since].
  assert (delete "username" (delete "token" (localStorage w)) !! "token" = None) as Htok
    by (by rewrite lookup_delete_ne, lookup_delete_eq).
  repeat split.
  - exact Htok.
  - by rewrite !lookup_delete_ne.
  - unfold SidebarSettings.username. by rewrite lookup_delete_eq.
  - by since.
  - unfold SidebarConversationList.fetchSessions. cbn. by rewrite Htok.
Qed.

(** ** The authentication page *)

(** X27: whatever is submitted and whatever comes back, the form ends
    idle ([loading] false) with its fields unchanged and has sent at
    most one request; and unless the answer is a 2xx response with a
    parsable body, nothing is written to the store and no navigation is
    scheduled. *)
Theorem handleSubmit_ends_idle
    (st : AuthPage.State) (answer : FetchResult AuthPage.AuthData)
    (store : gmap string string) :
  let st' := (AuthPage.handleSubmit st answer).1 in
  let acts := (AuthPage.handleSubmit st answer).2 in
  st' = AuthPage.set_loading false st
  ∧ AuthPage.loading st' = false
  ∧ (length (View.posts acts) ≤ 1)%nat
  ∧ if View.accepted answer then True
    else View.store_after store acts = store ∧ View.navigations acts = [].
Proof.
  intros st' acts. unfold st', acts, AuthPage.handleSubmit.
  destruct (negb (AuthPage.isRegister st)
            && negb (JS.truthy_string (AuthPage.username st))
            && negb (JS.truthy_string (AuthPage.email st))).
  - cbn. repeat split; [lia|]. by destruct (View.accepted answer).
  - destruct answer as [|[[] [data|] bt]]; cbn; repeat split; try lia; try done.
    destruct (JS.truthy_item (AuthPage.data_email data)); cbn; lia.
Qed.

(** X28: a login submitted with neither username nor email sends
    nothing: the only effect is the error toast, whatever the backend
    would have answered. *)
Theorem login_without_identifier
    (st : AuthPage.State) (answer : FetchResult AuthPage.AuthData) :
  AuthPage.isRegister st = false →
  AuthPage.username st = "" →
  AuthPage.email st = "" →
  AuthPage.handleSubmit st answer
  = (AuthPage.set_loading false st, [AuthPage.ToastError "Enter username or email"]).
Proof.
  intros Hlogin Hu He. unfold AuthPage.handleSubmit. by rewrite Hlogin, Hu, He.
Qed.

Lemma login_without_identifier_witness :
  AuthPage.handleSubmit
    {| AuthPage.username := ""; AuthPage.email := ""; AuthPage.password := "pw";
       AuthPage.isRegister := false; AuthPage.loading := false |}
    (Spec.success {| AuthPage.token := Some "t0k3n"; AuthPage.data_username := None;
                     AuthPage.data_email := None; AuthPage.error := None |})
  = (AuthPage.set_loading false
       {| AuthPage.username := ""; AuthPage.email := ""; AuthPage.password := "pw";
          AuthPage.isRegister := false; AuthPage.loading := false |},
     [AuthPage.ToastError "Enter username or email"]).
Proof.
  apply (login_without_identifier
           {| AuthPage.username := ""; AuthPage.email := ""; AuthPage.password := "pw";
              AuthPage.isRegister := false; AuthPage.loading := false |});
    reflexivity.
Defined.

(** X29: when a submitted form (registration, or login with a username
    or an email) is answered 2xx with a parsable body, exactly one
    request was sent, to the endpoint of the mode with the payload of
    the form; the store then holds the returned token, as username the
    returned one or else the typed one, and the returned email if there
    is one (otherwise the email key is left alone); and one navigation
    to "/chat" is scheduled after 900 ms. *)
Theorem handleSubmit_success
    (st : AuthPage.State) (data : AuthPage.AuthData) (bt : option string)
    (store : gmap string string) :
  AuthPage.isRegister st = true
  ∨ JS.truthy_string (AuthPage.username st) = true
  ∨ JS.truthy_string (AuthPage.email st) = true →
  let acts := (AuthPage.handleSubmit st
                 (Response {| ok := true; json := Some data; body_text := bt |})).2 in
  View.posts acts = [ (AuthPage.endpoint st, AuthPage.payload st) ]
  ∧ View.store_after store acts !! "token" = Some (AuthPage.stored (AuthPage.token data))
  ∧ View.store_after store acts !! "username"
    = Some (AuthPage.or_else (AuthPage.data_username data) (AuthPage.username st))
  ∧ View.store_after store acts !! "email"
    = (if JS.truthy_item (AuthPage.data_email data) then AuthPage.data_email data
       else store !! "email")
  ∧ View.navigations acts = [ (900%nat, "/chat") ].
Proof.
  intros Hvalid acts. unfold acts, AuthPage.handleSubmit.
  assert (negb (AuthPage.isRegister st)
          && negb (JS.truthy_string (AuthPage.username st))
          && negb (JS.truthy_string (AuthPage.email st)) = false) as ->.
  { destruct Hvalid as [-> | [-> | ->]]; [done| |]; by rewrite ?andb_false_r. }
  cbn.
  destruct (AuthPage.data_email data) as [e|] eqn:He; cbn.
  - destruct (JS.truthy_item (Some e)) eqn:Hte; cbn;
      repeat split; try done; by simplify_map_eq.
  - change (JS.truthy_item None) with false. cbn.
    repeat split; try done; by simplify_map_eq.
Qed.

Lemma handleSubmit_success_witness :
  let st := {| AuthPage.username := "asha"; AuthPage.email := ""; AuthPage.password := "pw";
               AuthPage.isRegister := false; AuthPage.loading := false |} in
  let data := {| AuthPage.token := Some "t0k3n"; AuthPage.data_username := None;
                 AuthPage.data_email := None; AuthPage.error := None |} in
  let acts := (AuthPage.handleSubmit st
                 (Response {| ok := true; json := Some data; body_text := None |})).2 in
  View.posts acts = [ (AuthPage.endpoint st, AuthPage.payload st) ]
  ∧ View.store_after ∅ acts !! "token" = Some (AuthPage.stored (AuthPage.token data))
  ∧ View.store_after ∅ acts !! "username"
    = Some (AuthPage.or_else (AuthPage.data_username data) (AuthPage.username st))
  ∧ View.store_after ∅ acts !! "email"
    = (if JS.truthy_item (AuthPage.data_email data) then AuthPage.data_email data
       else (∅ : gmap string string) !! "email")
  ∧ View.navigations acts = [ (900%nat, "/chat") ].
Proof.
  intros st data.
  apply (handleSubmit_success st data None ∅). right. left. reflexivity.
Defined.

(** X30: the single login field gives back what was typed into it, and
    fills at most one of username and email: a value containing "@" is
    taken as the email, any other as the username; the login payload is
    then by email for a value with "@" and by username for any other
    non-empty value. *)
Theorem login_field_round_trip (value : string) (st : AuthPage.State) :
  let st' := AuthPage.onChangeUserOrEmail value (AuthPage.switchToLogin st) in
  AuthPage.userOrEmail st' = value
  ∧ (AuthPage.username st' = "" ∨ AuthPage.email st' = "")
  ∧ AuthPage.payload st'
    = (if JS.includes value "@" then AuthPage.ByEmail value (AuthPage.password st)
       else if JS.truthy_string value then AuthPage.ByUsername value (AuthPage.password st)
       else AuthPage.ByEmail "" (AuthPage.password st)).
Proof.
  intros st'. unfold st', AuthPage.onChangeUserOrEmail, AuthPage.userOrEmail,
    AuthPage.payload, AuthPage.switchToLogin.
  destruct (JS.includes value "@") eqn:Hat; cbn.
  - change (JS.truthy_string "") with false. cbn. auto.
  - destruct (JS.truthy_string value) eqn:Hv; cbn; [auto|].
    repeat split; [|auto]. by destruct value.
Qed.
